(** * DIBO Cafe front end: the admin console's synchronisation handlers

    A shallow embedding of the event handlers of the products, reviews and
    reservation screens, and the properties the design document states
    about them.

    Each handler of the source is an [async] function: a sequence of React
    state updates ([setProducts], [setLastDoc], ...), notifications
    ([toast], [alert], [console.error]) and awaited Firestore calls.  A
    handler is embedded as a finite tree of such operations ([Proc]), with
    the continuation of every awaited call taking the call's outcome, so
    that [try]/[catch]/[finally] is the case analysis on that outcome.

    Firestore itself is not part of the repository: its calls are the
    nodes of the tree and its answers are supplied by an environment. *)

From Stdlib Require Import List String ZArith Bool Arith Lia Sorted Permutation.
Import ListNotations.
Open Scope string_scope.
Open Scope list_scope.

Set Implicit Arguments.

(* ================================================================== *)
(** * Firestore: the interface the handlers talk to                   *)
(* ================================================================== *)

Module Firestore.

(** Values that occur in [where] clauses. *)
Inductive Value :=
| VStr (s : string)
| VNum (n : Z)
| VBool (b : bool).

Inductive Direction := asc | desc.

Section Calls.
(** [D] is the shape of a document of the collection a screen works
    on: a record whose fields are all optional, so that the same type
    serves for stored documents and for the partial field sets passed
    to [updateDoc]. *)
Variable D : Type.

(** [QueryDocumentSnapshot]: [docSnap.id] and [docSnap.data()]. *)
Record QueryDocumentSnapshot := mkSnap {
  id : string;
  data : D
}.

(** [query(collection(db, c), where(..)*, orderBy(..)?, startAfter(..)?, limit(..)?)] *)
Record Query := mkQuery {
  q_collection : string;
  q_where : list (string * Value);
  q_orderBy : option (string * Direction);
  q_startAfter : option QueryDocumentSnapshot;
  q_limit : option nat
}.

Inductive RemoteCall :=
| getDocs (q : Query)
| addDoc (coll : string) (fields : D)
| updateDoc (coll : string) (docId : string) (fields : D)
| deleteDoc (coll : string) (docId : string).

(** What an awaited call resolves to.  [Rejected] is the promise
    rejecting (the [catch] block runs); the others are the values of a
    fulfilled [getDocs], [addDoc] and [updateDoc]/[deleteDoc]. *)
Inductive Response :=
| Rejected
| Snapshot (docs : list QueryDocumentSnapshot)
| DocRef (newId : string)
| Fulfilled.

Definition isWrite (c : RemoteCall) : bool :=
  match c with getDocs _ => false | _ => true end.
End Calls.

Arguments Rejected {D}.
Arguments Fulfilled {D}.
Arguments DocRef {D} newId.
Arguments deleteDoc {D} coll docId.

End Firestore.
Import Firestore.

(* ================================================================== *)
(** * Asynchronous handlers                                            *)
(* ================================================================== *)

Inductive ToastLevel := success | info | warning | error.

(** User-visible and console notifications.  The message texts of the
    source are Arabic sentences; the embedding keeps the channel and, for
    [console.error], the ASCII label. *)
Inductive Notice :=
| toast (level : ToastLevel)
| alert
| console_error (label : string).

Section Proc.
Variables D S : Type.

(** A handler body over component state [S], returning [A]. *)
Inductive Proc (A : Type) :=
| Ret (a : A)
| SetState (f : S -> S) (k : Proc A)
| Notify (n : Notice) (k : Proc A)
| Await (c : RemoteCall D) (k : Response D -> Proc A).

Fixpoint bind {A B} (p : Proc A) (f : A -> Proc B) : Proc B :=
  match p with
  | Ret a => f a
  | SetState g k => SetState g (bind k f)
  | Notify n k => Notify n (bind k f)
  | Await c k => Await c (fun r => bind (k r) f)
  end.

(** What an observer of one handler sees, in order: a remote call
    together with the component state visible when it is issued, or a
    notification. *)
Inductive Event :=
| EvCall (c : RemoteCall D) (visible : S)
| EvNotice (n : Notice).

(** Run a handler to completion, the environment answering each call. *)
Fixpoint run {A} (p : Proc A) (env : RemoteCall D -> Response D) (s : S)
  : A * S * list Event :=
  match p with
  | Ret a => (a, s, [])
  | SetState f k => run k env (f s)
  | Notify n k =>
      let '(a, s', t) := run k env s in (a, s', EvNotice n :: t)
  | Await c k =>
      let '(a, s', t) := run (k (env c)) env s in (a, s', EvCall c s :: t)
  end.

Definition result {A} (x : A * S * list Event) : A := fst (fst x).
Definition final {A} (x : A * S * list Event) : S := snd (fst x).
Definition events {A} (x : A * S * list Event) : list Event := snd x.

(** The remote calls of a trace, each with the state visible at issue. *)
Fixpoint calls (t : list Event) : list (RemoteCall D * S) :=
  match t with
  | [] => []
  | EvCall c s :: t' => (c, s) :: calls t'
  | EvNotice _ :: t' => calls t'
  end.

Fixpoint notices (t : list Event) : list Notice :=
  match t with
  | [] => []
  | EvCall _ _ :: t' => notices t'
  | EvNotice n :: t' => n :: notices t'
  end.

(** ** Interleaved handlers

    The page runs on one thread: a handler runs without interruption up
    to its next [await], and is resumed when that call resolves.  Several
    handlers can therefore be suspended at once. *)

Record Suspended := mkSuspended {
  pending_call : RemoteCall D;
  resume : Response D -> Proc unit
}.

Record Page := mkPage {
  visible : S;
  inflight : list Suspended;
  issued : list (RemoteCall D * S)
}.

(** Run [p] up to its first [await] (or to its end). *)
Fixpoint advance (p : Proc unit) (pg : Page) : Page :=
  match p with
  | Ret _ => pg
  | SetState f k => advance k (mkPage (f (visible pg)) (inflight pg) (issued pg))
  | Notify _ k => advance k pg
  | Await c k =>
      mkPage (visible pg)
             (inflight pg ++ [mkSuspended c k])
             (issued pg ++ [(c, visible pg)])
  end.

Fixpoint remove_nth {X} (i : nat) (l : list X) : list X :=
  match l, i with
  | [], _ => []
  | _ :: l', O => l'
  | x :: l', Datatypes.S i' => x :: remove_nth i' l'
  end.

Inductive Action :=
| Ui (f : S -> S)
| Invoke (handler : S -> Proc unit)
| Resolve (i : nat) (r : Response D).

(** One step of the page: a synchronous state change made by the
    interface, a handler invoked from the current render (its closure
    captures the visible state), or the [i]-th suspended call
    resolving. *)
Definition step (pg : Page) (a : Action) : Page :=
  match a with
  | Ui f => mkPage (f (visible pg)) (inflight pg) (issued pg)
  | Invoke h => advance (h (visible pg)) pg
  | Resolve i r =>
      match nth_error (inflight pg) i with
      | None => pg
      | Some sp =>
          advance (resume sp r)
                  (mkPage (visible pg) (remove_nth i (inflight pg)) (issued pg))
      end
  end.

Definition schedule (pg : Page) (acts : list Action) : Page :=
  fold_left step acts pg.

Definition idle (s : S) : Page := mkPage s [] [].
End Proc.

Arguments Ret {D S A} a.
Arguments SetState {D S A} f k.
Arguments Notify {D S A} n k.
Arguments Await {D S A} c k.
Arguments EvNotice {D S} n.
Arguments Ui {D S} f.
Arguments Invoke {D S} handler.

Declare Scope proc_scope.
Delimit Scope proc_scope with proc.
Notation "x <- p ;; q" := (bind p (fun x => q))
  (at level 61, p at next level, right associativity) : proc_scope.

(* ================================================================== *)
(** * components/dashboard/ProductsManagement.tsx                      *)
(* ================================================================== *)

Module Products.

(** A document of the [products] collection; every field may be absent
    from a stored document or from an update's field set. *)
Record ProductDoc := mkDoc {
  d_name : option string;
  d_category : option string;
  d_price : option Z;
  d_description : option string;
  d_img : option string;
  d_createdAt : option Z;
  d_featured : option bool
}.

(** [type Product]; instants ([Timestamp | Date | number]) are
    milliseconds since the epoch, prices are integral. *)
Record Product := mkProduct {
  id : string;
  name : string;
  category : string;
  price : Z;
  description : option string;
  img : option string;
  createdAt : Z;
  featured : option bool
}.

Record FormState := mkForm {
  f_name : string;
  f_category : string;
  f_price : string;
  f_description : string;
  f_img : string
}.

Inductive PriceError := price_required | price_negative.

(** [FormErrors]: which keys of the form carry a message. *)
Record FormErrors := mkErrors {
  e_name : bool;
  e_category : bool;
  e_price : option PriceError
}.

Definition PAGE_SIZE : nat := 5.
Definition MAX_FEATURED : nat := 6.

Definition Snap := QueryDocumentSnapshot ProductDoc.

(** The [useState] cells the handlers read or write. *)
Record State := mkState {
  products : list Product;
  lastDoc : option Snap;
  loadingMore : bool;
  showModal : bool;
  editing : option Product;
  confirmOpen : bool;
  toDeleteId : option string;
  form : FormState;
  errors : FormErrors
}.

Definition setProducts (f : list Product -> list Product) (s : State) : State :=
  mkState (f (products s)) (lastDoc s) (loadingMore s) (showModal s)
          (editing s) (confirmOpen s) (toDeleteId s) (form s) (errors s).
Definition setLastDoc (v : option Snap) (s : State) : State :=
  mkState (products s) v (loadingMore s) (showModal s)
          (editing s) (confirmOpen s) (toDeleteId s) (form s) (errors s).
Definition setLoadingMore (v : bool) (s : State) : State :=
  mkState (products s) (lastDoc s) v (showModal s)
          (editing s) (confirmOpen s) (toDeleteId s) (form s) (errors s).
Definition setShowModal (v : bool) (s : State) : State :=
  mkState (products s) (lastDoc s) (loadingMore s) v
          (editing s) (confirmOpen s) (toDeleteId s) (form s) (errors s).
Definition setConfirmOpen (v : bool) (s : State) : State :=
  mkState (products s) (lastDoc s) (loadingMore s) (showModal s)
          (editing s) v (toDeleteId s) (form s) (errors s).
Definition setToDeleteId (v : option string) (s : State) : State :=
  mkState (products s) (lastDoc s) (loadingMore s) (showModal s)
          (editing s) (confirmOpen s) v (form s) (errors s).
Definition setErrors (v : FormErrors) (s : State) : State :=
  mkState (products s) (lastDoc s) (loadingMore s) (showModal s)
          (editing s) (confirmOpen s) (toDeleteId s) (form s) v.

Definition Handler := Proc ProductDoc State.

(** JavaScript truthiness of [p.featured] ([boolean | undefined]) and of
    a string. *)
Definition truthy (b : option bool) : bool :=
  match b with Some true => true | _ => false end.
Definition nonEmpty (s : string) : bool :=
  match s with EmptyString => false | _ => true end.

Definition orElse {X} (o : option X) (d : X) : X :=
  match o with Some x => x | None => d end.

(** [normalizeDoc]; [now] is [Date.now()]. *)
Definition normalizeDoc (now : Z) (docSnap : Snap) : Product :=
  let data := Firestore.data docSnap in
  {| id := Firestore.id docSnap;
     name := orElse (d_name data) "";
     category := orElse (d_category data) "";
     price := orElse (d_price data) 0%Z;
     description :=
       Some (match d_description data with
             | Some s => if nonEmpty s then s else ""
             | None => "" end);
     img :=
       Some (match d_img data with
             | Some s => if nonEmpty s then s else ""
             | None => "" end);
     createdAt := orElse (d_createdAt data) now;
     featured := Some (orElse (d_featured data) false) |}.

(** [snapshot.docs.length ? snapshot.docs[snapshot.docs.length - 1] : null] *)
Definition lastOf (docs : list Snap) : option Snap :=
  match docs with
  | [] => None
  | d :: _ => Some (last docs d)
  end.

Definition firstPageQuery : Query ProductDoc :=
  mkQuery "products" [] (Some ("createdAt", desc)) None (Some PAGE_SIZE).

Definition nextPageQuery (cursor : Snap) : Query ProductDoc :=
  mkQuery "products" [] (Some ("createdAt", desc)) (Some cursor) (Some PAGE_SIZE).

(** [fetchProducts] *)
Definition fetchProducts (now : Z) : Handler unit :=
  Await (getDocs firstPageQuery) (fun r =>
    match r with
    | Snapshot docs =>
        SetState (setProducts (fun _ => map (normalizeDoc now) docs))
        (SetState (setLastDoc (lastOf docs))
        (Ret tt))
    | _ =>
        Notify (console_error "fetchProducts error:")
        (Notify (toast error)
        (Ret tt))
    end).

(** [loadMore]; [s] is the render the handler was created in, from
    which its closure reads [lastDoc]. *)
Definition loadMore (now : Z) (s : State) : Handler unit :=
  match lastDoc s with
  | None => Ret tt
  | Some cursor =>
      SetState (setLoadingMore true)
      (Await (getDocs (nextPageQuery cursor)) (fun r =>
        match r with
        | Snapshot docs =>
            match docs with
            | _ :: _ =>
                SetState (setProducts (fun prev => prev ++ map (normalizeDoc now) docs))
                (SetState (setLastDoc (lastOf docs))
                (SetState (setLoadingMore false)
                (Ret tt)))
            | [] =>
                SetState (setLastDoc None)
                (SetState (setLoadingMore false)
                (Ret tt))
            end
        | _ =>
            Notify (console_error "loadMore error:")
            (Notify (toast error)
            (SetState (setLoadingMore false)
            (Ret tt)))
        end))
  end.

Section Handlers.
(** The two JavaScript built-ins the form handling relies on:
    [String.prototype.trim] and [Number(string)], [None] being [NaN]. *)
Variable trim : string -> string.
Variable Number : string -> option Z.

(** The error object [e] that [validate] builds from a form. *)
Definition formErrors (f : FormState) : FormErrors :=
  {| e_name := negb (nonEmpty (trim (f_name f)));
     e_category := negb (nonEmpty (trim (f_category f)));
     e_price :=
       if negb (nonEmpty (f_price f)) then Some price_required
       else match Number (f_price f) with
            | None => Some price_required
            | Some n => if (n <? 0)%Z then Some price_negative else None
            end |}.

(** [Object.keys(e).length === 0] *)
Definition noErrors (e : FormErrors) : bool :=
  negb (e_name e) && negb (e_category e)
  && match e_price e with None => true | Some _ => false end.

(** [validate]: stores the errors and tells whether there are none. *)
Definition validate (s : State) : Handler bool :=
  let e := formErrors (form s) in
  SetState (setErrors e) (Ret (noErrors e)).

(** [productData] of [handleSave]; [now] is [new Date()]. *)
Definition productData (now : Z) (f : FormState) : ProductDoc :=
  {| d_name := Some (trim (f_name f));
     d_category := Some (trim (f_category f));
     d_price := Some (orElse (Number (f_price f)) 0%Z);
     d_description := Some (trim (f_description f));
     d_img := Some (trim (f_img f));
     d_createdAt := Some now;
     d_featured := Some false |}.

(** [{ ...p, ...productData }]: every key of [productData] overrides
    the product's. *)
Definition spread (p : Product) (pd : ProductDoc) : Product :=
  {| id := id p;
     name := orElse (d_name pd) (name p);
     category := orElse (d_category pd) (category p);
     price := orElse (d_price pd) (price p);
     description := match d_description pd with Some x => Some x | None => description p end;
     img := match d_img pd with Some x => Some x | None => img p end;
     createdAt := orElse (d_createdAt pd) (createdAt p);
     featured := match d_featured pd with Some x => Some x | None => featured p end |}.

(** [{ id: docRef.id, ...productData }] *)
Definition created (newId : string) (now : Z) (pd : ProductDoc) : Product :=
  spread (mkProduct newId "" "" 0 None None now None) pd.

(** [{ ...productData, createdAt: Timestamp.fromDate(new Date(productData.createdAt)) }] *)
Definition writePayload (pd : ProductDoc) : ProductDoc :=
  mkDoc (d_name pd) (d_category pd) (d_price pd) (d_description pd)
        (d_img pd) (d_createdAt pd) (d_featured pd).

(** The [catch] block of [handleSave]. *)
Definition handleSave_catch (now : Z) : Handler unit :=
  Notify (console_error "handleSave error:")
  (Notify (toast error)
  (fetchProducts now)).

(** [handleSave]; [s] is the render whose [form] and [editing] the
    closure reads, [now] the clock. *)
Definition handleSave (now : Z) (s : State) : Handler unit :=
  (ok <- validate s ;;
  if negb ok then Ret tt else
  let pd := productData now (form s) in
  match editing s with
  | Some ed =>
      SetState (setProducts (fun prev =>
        map (fun p => if (id p =? id ed)%string then spread p pd else p) prev))
      (Await (updateDoc "products" (id ed) (writePayload pd)) (fun r =>
        match r with
        | Rejected => handleSave_catch now
        | _ =>
            Notify (toast success)
            (SetState (setShowModal false)
            (Ret tt))
        end))
  | None =>
      Await (addDoc "products" (writePayload pd)) (fun r =>
        match r with
        | DocRef newId =>
            SetState (setProducts (fun prev => created newId now pd :: prev))
            (Notify (toast success)
            (SetState (setShowModal false)
            (Ret tt)))
        | _ => handleSave_catch now
        end)
  end)%proc.
End Handlers.

(** [handleDelete]; the closure reads [toDeleteId] and [products]. *)
Definition handleDelete (s : State) : Handler unit :=
  match toDeleteId s with
  | None => Ret tt
  | Some target =>
      if negb (nonEmpty target) then Ret tt else
      let prevSnapshot := products s in
      SetState (setProducts (fun prev =>
        filter (fun p => negb (id p =? target)%string) prev))
      (Await (deleteDoc "products" target) (fun r =>
        match r with
        | Rejected =>
            Notify (console_error "handleDelete error:")
            (Notify (toast error)
            (SetState (setProducts (fun _ => prevSnapshot))
            (SetState (setToDeleteId None)
            (SetState (setConfirmOpen false)
            (Ret tt)))))
        | _ =>
            Notify (toast info)
            (SetState (setToDeleteId None)
            (SetState (setConfirmOpen false)
            (Ret tt)))
        end))
  end.

(** [{ ...product, featured: !product.featured }] *)
Definition toggled (product : Product) : Product :=
  mkProduct (id product) (name product) (category product) (price product)
            (description product) (img product) (createdAt product)
            (Some (negb (truthy (featured product)))).

(** [{ featured: updated.featured }] *)
Definition featuredOnly (v : option bool) : ProductDoc :=
  mkDoc None None None None None None v.

(** [products.filter(p => p.featured).length] *)
Definition featuredCount (l : list Product) : nat :=
  List.length (filter (fun p => truthy (featured p)) l).

(** [toggleFeatured]; the closure reads [products] of render [s]. *)
Definition toggleFeatured (s : State) (product : Product) : Handler unit :=
  let currentFeaturedCount := featuredCount (products s) in
  if negb (truthy (featured product)) && (MAX_FEATURED <=? currentFeaturedCount)%nat
  then Notify (toast warning) (Ret tt)
  else
    let updated := toggled product in
    SetState (setProducts (fun prev =>
      map (fun p => if (id p =? id product)%string then updated else p) prev))
    (Await (updateDoc "products" (id product) (featuredOnly (featured updated))) (fun r =>
      match r with
      | Rejected =>
          Notify (console_error "toggleFeatured error:")
          (Notify (toast error)
          (Ret tt))
      | _ =>
          Notify (toast success)
          (Ret tt)
      end)).

End Products.

(* ================================================================== *)
(** * components/dashboard/ReviewsManagement.tsx                       *)
(* ================================================================== *)

Module Reviews.

(** The field sets written to the [reviews] collection. *)
Record ReviewDoc := mkDoc {
  d_featured : option bool
}.

(** [interface Review] *)
Record Review := mkReview {
  id : string;
  name : string;
  comment : string;
  rating : Z;
  type : option string;
  username : option string;
  productName : option string;
  cafeName : option string;
  createdAt : Z;
  featured : bool
}.

Record State := mkState {
  reviews : list Review;
  loading : bool;
  selectedReview : option Review
}.

Definition setReviews (f : list Review -> list Review) (s : State) : State :=
  mkState (f (reviews s)) (loading s) (selectedReview s).

Definition Handler := Proc ReviewDoc State.

(** [{ ...r, featured: newFeatured }] *)
Definition withFeatured (r : Review) (newFeatured : bool) : Review :=
  mkReview (id r) (name r) (comment r) (rating r) (type r) (username r)
           (productName r) (cafeName r) (createdAt r) newFeatured.

(** [toggleFeatured]; the closure reads [reviews] of render [s].  The
    source's doc comment reads "Toggle featured status with a max of 3"
    and its alert tells the user that only three can be chosen; the
    comparison is against the literal [6]. *)
Definition toggleFeatured (s : State) (review : Review) : Handler unit :=
  let currentFeatured := filter (fun r => featured r) (reviews s) in
  let newFeatured := negb (featured review) in
  if newFeatured && (6 <=? List.length currentFeatured)%nat
  then Notify alert (Ret tt)
  else
    Await (updateDoc "reviews" (id review) (mkDoc (Some newFeatured))) (fun r =>
      match r with
      | Rejected =>
          Notify (console_error "toggleFeatured error:")
          (Ret tt)
      | _ =>
          SetState (setReviews (fun prev =>
            map (fun r => if (id r =? id review)%string
                          then withFeatured r newFeatured else r) prev))
          (Ret tt)
      end).

(** The limit announced by the doc comment and the alert of
    [toggleFeatured]. *)
Definition documentedLimit : nat := 3.

End Reviews.

(* ================================================================== *)
(** * pages/Reservation.tsx                                            *)
(* ================================================================== *)

Module Reservation.

(** [interface ReservationData] *)
Record ReservationData := mkData {
  name : string;
  phone : string;
  date : string;
  time : string;
  guests : Z
}.

(** A document of the [reservations] collection:
    [{ ...formData, createdAt }]. *)
Record ReservationDoc := mkDoc {
  d_form : ReservationData;
  d_createdAt : Z
}.

(** The values [errorMsg] takes: empty, the "slot already booked"
    sentence, and the "error while booking" sentence. *)
Inductive ErrorMsg := no_error | slot_taken | booking_failed.

Record State := mkState {
  formData : ReservationData;
  loading : bool;
  submitted : bool;
  errorMsg : ErrorMsg
}.

Definition setFormData (v : ReservationData) (s : State) : State :=
  mkState v (loading s) (submitted s) (errorMsg s).
Definition setLoading (v : bool) (s : State) : State :=
  mkState (formData s) v (submitted s) (errorMsg s).
Definition setSubmitted (v : bool) (s : State) : State :=
  mkState (formData s) (loading s) v (errorMsg s).
Definition setErrorMsg (v : ErrorMsg) (s : State) : State :=
  mkState (formData s) (loading s) (submitted s) v.

Definition Handler := Proc ReservationDoc State.

Definition isEmpty (s : string) : bool :=
  match s with EmptyString => true | _ => false end.

Definition slotQuery (f : ReservationData) : Query ReservationDoc :=
  mkQuery "reservations"
          [("date", VStr (date f)); ("time", VStr (time f))]
          None None None.

(** [checkAvailability]; the closure reads [formData] of render [s]. *)
Definition checkAvailability (s : State) : Handler bool :=
  let f := formData s in
  if isEmpty (date f) || isEmpty (time f) then Ret true
  else
    Await (getDocs (slotQuery f)) (fun r =>
      match r with
      | Snapshot docs => Ret (match docs with [] => true | _ => false end)
      | _ => Notify (console_error "Error checking availability:") (Ret false)
      end).

Definition emptyForm : ReservationData := mkData "" "" "" "" 1.

(** [handleSubmit]; [now] is [Timestamp.now()]. *)
Definition handleSubmit (now : Z) (s : State) : Handler unit :=
  SetState (setLoading true)
  (SetState (setErrorMsg no_error)
  (SetState (setSubmitted false)
  (isAvailable <- checkAvailability s ;;
    if negb isAvailable then
      SetState (setErrorMsg slot_taken)
      (SetState (setLoading false)
      (Ret tt))
    else
      Await (addDoc "reservations" (mkDoc (formData s) now)) (fun r =>
        match r with
        | Rejected =>
            Notify (console_error "Error submitting reservation:")
            (SetState (setErrorMsg booking_failed)
            (SetState (setLoading false)
            (Ret tt)))
        | _ =>
            SetState (setSubmitted true)
            (SetState (setFormData emptyForm)
            (SetState (setLoading false)
            (Ret tt)))
        end))))%proc.

(** The three outcomes the design document gives the availability
    check. *)
Inductive Availability := Available | Conflict | Unknown.

End Reservation.

(* ================================================================== *)
(** * A store with a fixed collection                                  *)
(* ================================================================== *)

(** The environment used for the pagination properties: a collection
    that does not change while it is read.  [listing] is the order in
    which the store lists the collection for the query's [orderBy]; a
    query with [startAfter(cursor)] is answered from the documents that
    follow the cursor's document, [limit(n)] keeps the first [n]. *)
Module Store.
Section Listing.
Variable D : Type.

Fixpoint after (cursor : string) (l : list (QueryDocumentSnapshot D))
  : list (QueryDocumentSnapshot D) :=
  match l with
  | [] => []
  | d :: rest => if (id d =? cursor)%string then rest else after cursor rest
  end.

Definition answer (listing : list (QueryDocumentSnapshot D)) (q : Query D)
  : list (QueryDocumentSnapshot D) :=
  let from :=
    match q_startAfter q with
    | None => listing
    | Some cursor => after (id cursor) listing
    end in
  match q_limit q with
  | None => from
  | Some n => firstn n from
  end.

Definition serve (listing : list (QueryDocumentSnapshot D)) (c : RemoteCall D)
  : Response D :=
  match c with
  | getDocs q => Snapshot (answer listing q)
  | _ => Fulfilled
  end.

(** A store out of reach: every call is rejected. *)
Definition offline (c : RemoteCall D) : Response D := Rejected.
End Listing.
Arguments offline {D} c.
End Store.

(** ** Paging through the products *)

Module Paging.
Import Products.

(** One run of [fetchProducts], which the component's [useEffect] issues
    after a render, and one run of [loadMore], the "load more" button,
    which the page shows while [lastDoc] is set. *)
Definition loadFirstPage (now : Z) (env : RemoteCall ProductDoc -> Response ProductDoc)
           (s : State) : State :=
  final (run (fetchProducts now) env s).

Definition loadNextPage (now : Z) (env : RemoteCall ProductDoc -> Response ProductDoc)
           (s : State) : State :=
  final (run (loadMore now s) env s).

(** The cursor is exhausted when [lastDoc] is [null]: the page hides
    the "load more" button and [loadMore] returns at once. *)
Definition exhausted (s : State) : Prop := lastDoc s = None.

(** The rule of the design document: a page shorter than [PAGE_SIZE]
    exhausts the cursor, a full page does not. *)
Definition exhaustsOnShortPage (now : Z)
           (env : RemoteCall ProductDoc -> Response ProductDoc) (s : State) : Prop :=
  forall cursor docs,
    lastDoc s = Some cursor ->
    env (getDocs (nextPageQuery cursor)) = Snapshot docs ->
    (exhausted (loadNextPage now env s) <-> List.length docs < PAGE_SIZE).

(** The state holds the first [m] documents of the listing, and the
    cursor is the last of them. *)
Definition loadedUpTo (now : Z) (listing : list Snap) (m : nat) (s : State) : Prop :=
  0 < m <= List.length listing
  /\ products s = map (normalizeDoc now) (firstn m listing)
  /\ lastDoc s = lastOf (firstn m listing).

(** The order of the design document, which also puts equal [createdAt]
    in ascending [id]. *)
Definition documentedOrder (a b : Product) : Prop :=
  (createdAt b < createdAt a)%Z
  \/ (createdAt a = createdAt b /\ (id a <=? id b)%string = true).
End Paging.

(** ** The reservations collection *)

Module Bookings.
Import Reservation.

Definition Snap := QueryDocumentSnapshot ReservationDoc.

Definition value_eqb (a b : Value) : bool :=
  match a, b with
  | VStr x, VStr y => (x =? y)%string
  | VNum x, VNum y => (x =? y)%Z
  | VBool x, VBool y => Bool.eqb x y
  | _, _ => false
  end.

Definition field (d : ReservationDoc) (k : string) : option Value :=
  if (k =? "name")%string then Some (VStr (name (d_form d)))
  else if (k =? "phone")%string then Some (VStr (phone (d_form d)))
  else if (k =? "date")%string then Some (VStr (date (d_form d)))
  else if (k =? "time")%string then Some (VStr (time (d_form d)))
  else if (k =? "guests")%string then Some (VNum (guests (d_form d)))
  else if (k =? "createdAt")%string then Some (VNum (d_createdAt d))
  else None.

(** [where(k, "==", v)] for every clause of the query. *)
Definition matches (w : list (string * Value)) (d : ReservationDoc) : bool :=
  forallb (fun kv => match field d (fst kv) with
                     | Some v => value_eqb v (snd kv)
                     | None => false
                     end) w.

(** A store holding the reservations [coll]. *)
Definition serve (coll : list Snap) (c : RemoteCall ReservationDoc)
  : Response ReservationDoc :=
  match c with
  | getDocs q => Snapshot (filter (fun d => matches (q_where q) (data d)) coll)
  | _ => Fulfilled
  end.
End Bookings.

(** How the caller of [checkAvailability] would have to read its boolean
    for the three outcomes of the design document to be told apart. *)
Definition tellsApart (classify : bool -> Reservation.Availability)
           (whenFree whenTaken whenFailed : bool) : Prop :=
  classify whenFree = Reservation.Available
  /\ classify whenTaken = Reservation.Conflict
  /\ classify whenFailed = Reservation.Unknown.

(* ================================================================== *)
(** * Sample data                                                      *)
(* ================================================================== *)

Module Sample.

(** ** Reservation page *)
Definition dinner : Reservation.ReservationData :=
  Reservation.mkData "Mona" "0100" "2025-03-01" "19:00" 2.
Definition noDate : Reservation.ReservationData :=
  Reservation.mkData "Mona" "0100" "" "19:00" 2.
Definition booking (f : Reservation.ReservationData) : Reservation.State :=
  Reservation.mkState f false false Reservation.no_error.
Definition earlier : Bookings.Snap :=
  mkSnap "r1" (Reservation.mkDoc
                 (Reservation.mkData "Omar" "0111" "2025-03-01" "19:00" 4) 5).

(** ** Reviews screen *)
Definition review (i : string) (f : bool) : Reviews.Review :=
  Reviews.mkReview i "guest" "nice" 5 None None None None 10 f.
Definition threeFeatured : Reviews.State :=
  Reviews.mkState
    [review "r1" true; review "r2" true; review "r3" true; review "r4" false]
    false None.
Definition oneReview : Reviews.State :=
  Reviews.mkState [review "r1" false] false None.

(** ** Products screen *)
Definition product (i : string) (t : Z) (f : bool) : Products.Product :=
  Products.mkProduct i "latte" "hot" 40 (Some "") (Some "") t (Some f).
Definition blankForm : Products.FormState := Products.mkForm "" "" "" "" "".
Definition noErrors : Products.FormErrors := Products.mkErrors false false None.
Definition shelf (l : list Products.Product) : Products.State :=
  Products.mkState l None false false None false None blankForm noErrors.

Definition doc (i : string) (t : Z) : Products.Snap :=
  mkSnap i (Products.mkDoc (Some "latte") (Some "hot") (Some 40%Z)
                           (Some "") (Some "") (Some t) (Some false)).

(** Twelve products, newest first. *)
Definition twelve : list Products.Snap :=
  [doc "p12" 12; doc "p11" 11; doc "p10" 10; doc "p09" 9; doc "p08" 8;
   doc "p07" 7; doc "p06" 6; doc "p05" 5; doc "p04" 4; doc "p03" 3;
   doc "p02" 2; doc "p01" 1].

(** Two products created at the same instant, as a store lists them
    that breaks ties on [createdAt] by descending document id. *)
Definition tied : list Products.Snap := [doc "b" 1; doc "a" 1].

(** Product p1 open in the edit form. *)
Definition latteForm : Products.FormState :=
  Products.mkForm "Latte" "hot" "45" "" "".
Definition editingP1 : Products.State :=
  Products.mkState [product "p1" 100 true] None false true
                   (Some (product "p1" 100 true)) false None latteForm noErrors.

End Sample.

(** ** The form's built-ins on plain input

    [trim] for ASCII white space and [Number] for an optionally signed
    run of decimal digits (the empty string is [0], anything else
    [NaN]): what the two built-ins do on such input. *)
Module Js.
Import Ascii.

Definition isSpace (c : ascii) : bool :=
  let n := nat_of_ascii c in
  (n =? 32)%nat || ((9 <=? n)%nat && (n <=? 13)%nat).

Fixpoint trimStart (s : string) : string :=
  match s with
  | String c rest => if isSpace c then trimStart rest else s
  | EmptyString => EmptyString
  end.

Fixpoint reverse (s acc : string) : string :=
  match s with
  | String c rest => reverse rest (String c acc)
  | EmptyString => acc
  end.

Definition trim (s : string) : string :=
  reverse (trimStart (reverse (trimStart s) "")) "".

Definition digit (c : ascii) : option Z :=
  let n := nat_of_ascii c in
  if (48 <=? n)%nat && (n <=? 57)%nat then Some (Z.of_nat (n - 48)) else None.

Fixpoint digits (s : string) (acc : Z) : option Z :=
  match s with
  | EmptyString => Some acc
  | String c rest =>
      match digit c with
      | Some d => digits rest (10 * acc + d)%Z
      | None => None
      end
  end.

Definition Number (s : string) : option Z :=
  match trim s with
  | EmptyString => Some 0%Z
  | String "-"%char (String c rest) =>
      option_map Z.opp (digits (String c rest) 0%Z)
  | t => digits t 0%Z
  end.
End Js.

(* ================================================================== *)
(** * Observing mutations                                              *)
(* ================================================================== *)

Section Observing.
Variables D S : Type.

(** The document a write aims at; a create has none yet. *)
Definition target (c : RemoteCall D) : option string :=
  match c with
  | updateDoc _ docId _ => Some docId
  | deleteDoc _ docId => Some docId
  | _ => None
  end.

(** The design document's timing rule, on one run of a handler: at every
    remote write, the part [view] of the state that the interface shows
    already has the value it has when the handler is done. *)
Definition appliedBeforeWrite {V} (view : S -> V)
           (r : unit * S * list (Event D S)) : Prop :=
  forall c st, In (c, st) (calls (events r)) ->
               isWrite c = true -> view st = view (final r).

(** The design document's per-entity queue, on a page: no two suspended
    writes aim at the same document. *)
Definition serialised (pg : Page D S) : Prop :=
  NoDup (flat_map (fun sp => match target (pending_call sp) with
                             | Some i => [i]
                             | None => []
                             end) (inflight pg)).

(** What invoking handler [h] from render [s] does before it suspends,
    when it suspends on a call: the state it leaves visible and the call
    it waits for. *)
Definition outcome (h : S -> Proc D S unit) (s : S) : option (S * RemoteCall D) :=
  match inflight (advance (h s) (idle D s)) with
  | [sp] => Some (visible (advance (h s) (idle D s)), pending_call sp)
  | _ => None
  end.
End Observing.

(** ** The mutation controls of the products screen *)

Module Console.
Import Products.

Inductive Mutation :=
| checkFeatured (row : string)
| saveForm (now : Z)
| confirmDelete.

Section Controls.
Variable trim : string -> string.
Variable Number : string -> option Z.

(** The handler each control invokes in render [s]: the checkbox of a
    row passes that row's product to [toggleFeatured]; the buttons of the
    form and of the delete dialog call [handleSave] and [handleDelete]. *)
Definition press (m : Mutation) (s : State) : Handler unit :=
  match m with
  | checkFeatured row =>
      match find (fun p => (id p =? row)%string) (products s) with
      | Some p => toggleFeatured s p
      | None => Ret tt
      end
  | saveForm now => handleSave trim Number now s
  | confirmDelete => handleDelete s
  end.
End Controls.
End Console.

(* ================================================================== *)
(** * ProductsManagement.tsx: the category handlers                    *)
(* ================================================================== *)

(** The category list and the "new category" input are state cells of
    the same component; the category handlers read and write only
    these two. *)
Module Categories.

(** A document of the [categories] collection. *)
Record CategoryDoc := mkDoc {
  d_name : option string
}.

(** [type Category] *)
Record Category := mkCategory {
  id : string;
  name : string
}.

Record State := mkState {
  categories : list Category;
  newCategory : string
}.

Definition setCategories (f : list Category -> list Category) (s : State) : State :=
  mkState (f (categories s)) (newCategory s).
Definition setNewCategory (v : string) (s : State) : State :=
  mkState (categories s) v.

Definition Handler := Proc CategoryDoc State.
Definition Snap := QueryDocumentSnapshot CategoryDoc.

(** [normalizeCategoryDoc] *)
Definition normalizeCategoryDoc (docSnap : Snap) : Category :=
  mkCategory (Firestore.id docSnap) (Products.orElse (d_name (data docSnap)) "").

Definition allCategories : Query CategoryDoc :=
  mkQuery "categories" [] None None None.

(** [fetchCategories] *)
Definition fetchCategories : Handler unit :=
  Await (getDocs allCategories) (fun r =>
    match r with
    | Snapshot docs =>
        SetState (setCategories (fun _ => map normalizeCategoryDoc docs))
        (Ret tt)
    | _ =>
        Notify (console_error "fetchCategories error:")
        (Notify (toast error)
        (Ret tt))
    end).

Section Handlers.
Variable trim : string -> string.

(** [handleAddCategory]; the closure reads [newCategory] of render [s]. *)
Definition handleAddCategory (s : State) : Handler unit :=
  let catName := trim (newCategory s) in
  if negb (Products.nonEmpty catName) then Ret tt else
  Await (addDoc "categories" (mkDoc (Some catName))) (fun r =>
    match r with
    | DocRef newId =>
        SetState (setCategories (fun prev => prev ++ [mkCategory newId catName]))
        (SetState (setNewCategory "")
        (Notify (toast success)
        (Ret tt)))
    | _ =>
        Notify (console_error "handleAddCategory error:")
        (Notify (toast error)
        (Ret tt))
    end).

(** [handleDeleteCategory] *)
Definition handleDeleteCategory (catId : string) : Handler unit :=
  Await (deleteDoc "categories" catId) (fun r =>
    match r with
    | Rejected =>
        Notify (console_error "")
        (Notify (toast error)
        (Ret tt))
    | _ =>
        SetState (setCategories (filter (fun c => negb (id c =? catId)%string)))
        (Notify (toast info)
        (Ret tt))
    end).

(** [handleEditCategory]; [{ ...c, name: newName }] keeps the id. *)
Definition handleEditCategory (catId newName : string) : Handler unit :=
  if negb (Products.nonEmpty (trim newName)) then Ret tt else
  Await (updateDoc "categories" catId (mkDoc (Some newName))) (fun r =>
    match r with
    | Rejected =>
        Notify (console_error "")
        (Notify (toast error)
        (Ret tt))
    | _ =>
        SetState (setCategories
                    (map (fun c => if (id c =? catId)%string
                                   then mkCategory (id c) newName else c)))
        (Notify (toast success)
        (Ret tt))
    end).
End Handlers.
End Categories.

(* ================================================================== *)
(** * ReviewsManagement.tsx: what the review cards show                *)
(* ================================================================== *)

Module ReviewCards.
Import Reviews.

Section Truncate.
(** A JavaScript string is its sequence of UTF-16 code units; [length]
    and [substring] count those. *)
Variable unit16 : Type.
Variable dot : unit16.

(** [truncate(text, length = 50)] *)
Definition truncate (text : list unit16) (length : nat) : list unit16 :=
  if (length <? List.length text)%nat
  then firstn length text ++ [dot; dot; dot]
  else text.

Definition truncateDefault (text : list unit16) : list unit16 :=
  truncate text 50.
End Truncate.

Section Filter.
(** [String.prototype.toLowerCase] and [String.prototype.includes]. *)
Variable toLowerCase : string -> string.
Variable includes : string -> string -> bool.

(** [r.username && r.username.toLowerCase().includes(...)]: an absent or
    empty optional field is falsy. *)
Definition optIncludes (field : option string) (needle : string) : bool :=
  match field with
  | Some x => if Products.nonEmpty x then includes (toLowerCase x) needle else false
  | None => false
  end.

Definition matchesSearch (search : string) (r : Review) : bool :=
  includes (toLowerCase (name r)) (toLowerCase search)
  || includes (toLowerCase (comment r)) (toLowerCase search)
  || optIncludes (username r) (toLowerCase search)
  || optIncludes (productName r) (toLowerCase search)
  || optIncludes (cafeName r) (toLowerCase search).

(** [filteredReviews], for the list, the search text and the filter
    chosen in the dropdown. *)
Definition filteredReviews (reviews : list Review) (search filter : string)
  : list Review :=
  let data := reviews in
  let data := if (filter =? "featured")%string
              then List.filter (fun r => featured r) data else data in
  let data := if (filter =? "none")%string
              then List.filter (fun r => negb (featured r)) data else data in
  List.filter (matchesSearch search) data.
End Filter.
End ReviewCards.

(* ================================================================== *)
(** * The orders component: editing the items of an order              *)
(* ================================================================== *)

Module Orders.

Section Items.
(** JavaScript numbers; the item functions only move them around. *)
Variable number : Type.
Variables zero one : number.
Variables add mul : number -> number -> number.

(** [interface OrderItem] *)
Record OrderItem := mkItem {
  i_id : string;
  i_productId : string;
  i_name : string;
  i_price : number;
  i_quantity : number
}.

Inductive Status := pending | completed.

(** [interface Order] *)
Record Order := mkOrder {
  id : string;
  customerName : string;
  items : list OrderItem;
  total : number;
  createdAt : Z;
  status : Status
}.

(** [interface Product] of the orders component. *)
Record Product := mkProduct {
  p_id : string;
  p_name : string;
  p_price : number
}.

(** The state cell [editingOrder]. *)
Definition State := option Order.
Definition Handler := Proc unit State.

(** [{ ...editingOrder, items }] *)
Definition withItems (o : Order) (l : list OrderItem) : Order :=
  mkOrder (id o) (customerName o) l (total o) (createdAt o) (status o).

(** A key of [OrderItem] with a value of its type. *)
Inductive ItemField :=
| at_id (v : string)
| at_productId (v : string)
| at_name (v : string)
| at_price (v : number)
| at_quantity (v : number).

(** [{ ...i, [field]: value }] *)
Definition setField (i : OrderItem) (fv : ItemField) : OrderItem :=
  match fv with
  | at_id v => mkItem v (i_productId i) (i_name i) (i_price i) (i_quantity i)
  | at_productId v => mkItem (i_id i) v (i_name i) (i_price i) (i_quantity i)
  | at_name v => mkItem (i_id i) (i_productId i) v (i_price i) (i_quantity i)
  | at_price v => mkItem (i_id i) (i_productId i) (i_name i) v (i_quantity i)
  | at_quantity v => mkItem (i_id i) (i_productId i) (i_name i) (i_price i) v
  end.

(** [addItem]; [stamp] is [Date.now().toString()], [editingOrder] the
    value of the cell in the render the handler was created in. *)
Definition addItem (stamp : string) (editingOrder : State) : Handler unit :=
  match editingOrder with
  | None => Ret tt
  | Some o =>
      let newItem := mkItem stamp "" "" zero one in
      SetState (fun _ => Some (withItems o (items o ++ [newItem]))) (Ret tt)
  end.

(** [removeItem] *)
Definition removeItem (itemId : string) (editingOrder : State) : Handler unit :=
  match editingOrder with
  | None => Ret tt
  | Some o =>
      SetState (fun _ =>
        Some (withItems o (filter (fun i => negb (i_id i =? itemId)%string) (items o))))
      (Ret tt)
  end.

(** [updateItem] *)
Definition updateItem (itemId : string) (fv : ItemField) (editingOrder : State)
  : Handler unit :=
  match editingOrder with
  | None => Ret tt
  | Some o =>
      SetState (fun _ =>
        Some (withItems o
                (map (fun i => if (i_id i =? itemId)%string then setField i fv else i)
                     (items o))))
      (Ret tt)
  end.

(** The [onChange] of an item's product selector: the three [updateItem]
    calls are made in one event, all from the same render. *)
Definition selectProduct (products : list Product) (itemId value : string)
           (editingOrder : State) : Handler unit :=
  match find (fun p => (p_id p =? value)%string) products with
  | Some selected =>
      (_ <- updateItem itemId (at_productId (p_id selected)) editingOrder ;;
       _ <- updateItem itemId (at_name (p_name selected)) editingOrder ;;
       updateItem itemId (at_price (p_price selected)) editingOrder)%proc
  | None => Ret tt
  end.

(** [calculateTotal] *)
Definition calculateTotal (l : list OrderItem) : number :=
  fold_left (fun acc i => add acc (mul (i_price i) (i_quantity i))) l zero.

(** No remote call is involved in editing items. *)
Definition noStore (c : RemoteCall unit) : Response unit := Rejected.

(** The cell after a handler created in render [s] has run. *)
Definition after (h : State -> Handler unit) (s : State) : State :=
  final (run (h s) noStore s).
End Items.
End Orders.

(** ** What the products form must hold to be saved *)

(** The conditions [validate] checks, spelled out: name and category not
    blank once trimmed, price not empty, numeric and not negative. *)
Definition acceptable (trim : string -> string) (Number : string -> option Z)
           (f : Products.FormState) : Prop :=
  trim (Products.f_name f) <> ""
  /\ trim (Products.f_category f) <> ""
  /\ Products.f_price f <> ""
  /\ exists n, Number (Products.f_price f) = Some n /\ (0 <= n)%Z.

(** ** Counting the entities that carry a flag *)

(** [l.filter(flag).length] *)
Definition flagged {A} (flag : A -> bool) (l : list A) : nat :=
  List.length (filter flag l).

(** ** Further sample data *)

Module Scenario.

(** The products form filled in for a new product. *)
Definition addingLatte : Products.State :=
  Products.mkState [Sample.product "p1" 100 true] None false true
                   None false None Sample.latteForm Sample.noErrors.

(** Six featured products and a seventh that is not. *)
Definition fullShelf : Products.State :=
  Sample.shelf
    [Sample.product "p1" 1 true; Sample.product "p2" 2 true;
     Sample.product "p3" 3 true; Sample.product "p4" 4 true;
     Sample.product "p5" 5 true; Sample.product "p6" 6 true;
     Sample.product "p7" 7 false].

(** The categories of the products form, a new name typed in. *)
Definition menu : Categories.State :=
  Categories.mkState
    [Categories.mkCategory "c1" "hot"; Categories.mkCategory "c2" "cold"]
    " iced ".

(** An order being edited, with one item. *)
Definition lunch : Orders.Order Z :=
  Orders.mkOrder "o1" "Mona"
    [Orders.mkItem "i1" "" "" 0%Z 1%Z] 0%Z 0 (Orders.pending).

Definition catalogue : list (Orders.Product Z) :=
  [Orders.mkProduct "p1" "latte" 40%Z; Orders.mkProduct "p2" "mocha" 55%Z].

End Scenario.

(* ================================================================== *)
(** * A store that answers the query it is sent                        *)
(* ================================================================== *)

(** ** Sorting by insertion *)

Section Sorting.
Variable A : Type.
Variable prec : A -> A -> bool.

Fixpoint insert (x : A) (l : list A) : list A :=
  match l with
  | [] => [x]
  | y :: rest => if prec x y then x :: l else y :: insert x rest
  end.

Definition sort (l : list A) : list A := fold_right insert [] l.
End Sorting.

(** ** Collections, and how Firestore answers a query on one

    A database gives the documents of each collection; it does not change
    while it is read.  A query is answered from the collection it names:
    the documents that satisfy every [where] clause, listed by the
    [orderBy] field in the direction asked (documents without that field
    are left out), documents equal on that field by document id in the
    same direction; without [orderBy], by document id ascending.
    [startAfter(doc)] keeps what comes strictly after that document in
    the listing and [limit(n)] the first [n] of that. *)
Module Db.
Section Collections.
Variable D : Type.
(** Reading a field of a document. *)
Variable field : D -> string -> option Value.

Definition Database := string -> list (QueryDocumentSnapshot D).

Definition bool_compare (x y : bool) : comparison :=
  match x, y with
  | false, true => Lt
  | true, false => Gt
  | _, _ => Eq
  end.

(** Values of different types: booleans before numbers before strings. *)
Definition value_compare (a b : Value) : comparison :=
  match a, b with
  | VBool x, VBool y => bool_compare x y
  | VBool _, _ => Lt
  | VNum _, VBool _ => Gt
  | VNum x, VNum y => Z.compare x y
  | VNum _, VStr _ => Lt
  | VStr x, VStr y => String.compare x y
  | VStr _, _ => Gt
  end.

Definition field_compare (a b : option Value) : comparison :=
  match a, b with
  | None, None => Eq
  | None, Some _ => Lt
  | Some _, None => Gt
  | Some x, Some y => value_compare x y
  end.

(** The sort key of a document: the [orderBy] field, then the id. *)
Definition key_compare (a b : option Value * string) : comparison :=
  match field_compare (fst a) (fst b) with
  | Eq => String.compare (snd a) (snd b)
  | c => c
  end.

Definition key (o : option (string * Direction)) (d : QueryDocumentSnapshot D)
  : option Value * string :=
  (match o with
   | Some (f, _) => field (data d) f
   | None => None
   end, id d).

Definition direction (o : option (string * Direction)) : Direction :=
  match o with
  | Some (_, dir) => dir
  | None => asc
  end.

(** [a] comes strictly before [b] in the listing for [o]. *)
Definition precedes (o : option (string * Direction))
           (a b : QueryDocumentSnapshot D) : bool :=
  match direction o, key_compare (key o a) (key o b) with
  | asc, Lt => true
  | desc, Gt => true
  | _, _ => false
  end.

Definition present (o : option (string * Direction)) (d : QueryDocumentSnapshot D)
  : bool :=
  match o with
  | Some (f, _) => match field (data d) f with Some _ => true | None => false end
  | None => true
  end.

Definition satisfies (w : list (string * Value)) (d : D) : bool :=
  forallb (fun kv => match field d (fst kv) with
                     | Some v => match value_compare v (snd kv) with
                                 | Eq => true
                                 | _ => false
                                 end
                     | None => false
                     end) w.

(** The whole listing for a query, before cursor and limit. *)
Definition listed (db : Database) (q : Query D) : list (QueryDocumentSnapshot D) :=
  sort (precedes (q_orderBy q))
       (filter (present (q_orderBy q))
               (filter (fun d => satisfies (q_where q) (data d))
                       (db (q_collection q)))).

Definition answer (db : Database) (q : Query D) : list (QueryDocumentSnapshot D) :=
  let from :=
    match q_startAfter q with
    | None => listed db q
    | Some cursor => filter (precedes (q_orderBy q) cursor) (listed db q)
    end in
  match q_limit q with
  | None => from
  | Some n => firstn n from
  end.

Definition serve (db : Database) (c : RemoteCall D) : Response D :=
  match c with
  | getDocs q => Snapshot (answer db q)
  | _ => Fulfilled
  end.
End Collections.
End Db.

(** ** The products collection in such a store *)

Module ProductsDb.
Import Products.

(** The fields of a product document, by name. *)
Definition field (d : ProductDoc) (k : string) : option Value :=
  if (k =? "name")%string then option_map VStr (d_name d)
  else if (k =? "category")%string then option_map VStr (d_category d)
  else if (k =? "price")%string then option_map VNum (d_price d)
  else if (k =? "description")%string then option_map VStr (d_description d)
  else if (k =? "img")%string then option_map VStr (d_img d)
  else if (k =? "createdAt")%string then option_map VNum (d_createdAt d)
  else if (k =? "featured")%string then option_map VBool (d_featured d)
  else None.

Definition Database := Db.Database ProductDoc.

Definition serve (db : Database) : RemoteCall ProductDoc -> Response ProductDoc :=
  Db.serve field db.

(** The store's listing of the products for the page queries. *)
Definition listing (db : Database) : list Snap :=
  Db.listed field db firstPageQuery.

Definition hasCreatedAt (d : Snap) : bool :=
  match d_createdAt (data d) with Some _ => true | None => false end.

(** The order in which the products come: newest first, products
    created at the same instant by descending id. *)
Definition storeOrder (a b : Product) : Prop :=
  (createdAt b < createdAt a)%Z
  \/ (createdAt a = createdAt b /\ String.compare (id a) (id b) = Gt).

(** A database whose only collection is [products]. *)
Definition only (docs : list Snap) : Database :=
  fun coll => if (coll =? "products")%string then docs else [].

(** Seven products stored in no particular order, two of them created
    at the same instant, and one document without [createdAt]. *)
Definition shop : Database :=
  only [Sample.doc "a" 1; Sample.doc "d" 3; Sample.doc "b" 1;
        mkSnap "x" (mkDoc (Some "tea") None None None None None None);
        Sample.doc "e" 4; Sample.doc "c" 2; Sample.doc "f" 5; Sample.doc "g" 6].

(** Two products created at the same instant. *)
Definition twins : Database := only [Sample.doc "a" 1; Sample.doc "b" 1].
End ProductsDb.

(* ================================================================== *)
(** * Properties                                                       *)
(* ================================================================== *)

Unset Implicit Arguments.

(** ** Running a sequence of handler bodies *)

Section RunFacts.
Variables D S : Type.

Lemma run_bind A B (p : Proc D S A) (f : A -> Proc D S B) env s :
  run (bind p f) env s =
  let '(a, s1, t1) := run p env s in
  let '(b, s2, t2) := run (f a) env s1 in
  (b, s2, t1 ++ t2).
Proof.
  revert s. induction p as [a | g k IH | n k IH | c k IH]; intro s; simpl.
  - destruct (run (f a) env s) as [[b s2] t2]. reflexivity.
  - apply IH.
  - rewrite IH. destruct (run k env s) as [[a s1] t1].
    destruct (run (f a) env s1) as [[b s2] t2]. reflexivity.
  - rewrite IH. destruct (run (k (env c)) env s) as [[a s1] t1].
    destruct (run (f a) env s1) as [[b s2] t2]. reflexivity.
Qed.
End RunFacts.

(** ** Reservation page *)

Section ReservationFacts.
Import Reservation.

Lemma isEmpty_spec (x : string) : isEmpty x = true <-> x = "".
Proof. destruct x; simpl; split; congruence. Qed.

Lemma guard_empty (s : State) :
  date (formData s) = "" \/ time (formData s) = "" ->
  isEmpty (date (formData s)) || isEmpty (time (formData s)) = true.
Proof.
  intros [H | H]; rewrite H; simpl; [reflexivity | apply orb_true_r].
Qed.

Lemma guard_filled (s : State) :
  date (formData s) <> "" -> time (formData s) <> "" ->
  isEmpty (date (formData s)) || isEmpty (time (formData s)) = false.
Proof.
  intros Hd Ht.
  destruct (date (formData s)); [congruence|].
  destruct (time (formData s)); [congruence|]. reflexivity.
Qed.
End ReservationFacts.

(** C10.  If the date or the time of the form is the empty string,
    [checkAvailability] answers [true] (available) without issuing any
    query, whatever the store would answer, and [handleSubmit] goes
    straight to the reservation create: the [addDoc] on [reservations]
    with the form's data is the first and only remote call it issues. *)
Theorem checkAvailability_skips_query_on_empty_slot
        (now : Z) (s : Reservation.State)
        (env : RemoteCall Reservation.ReservationDoc -> Response Reservation.ReservationDoc) :
  Reservation.date (Reservation.formData s) = ""
  \/ Reservation.time (Reservation.formData s) = "" ->
  run (Reservation.checkAvailability s) env s = (true, s, [])
  /\ map fst (calls (events (run (Reservation.handleSubmit now s) env s)))
     = [addDoc "reservations" (Reservation.mkDoc (Reservation.formData s) now)].
Proof.
  intro H. apply guard_empty in H.
  split.
  - unfold Reservation.checkAvailability. rewrite H. reflexivity.
  - unfold Reservation.handleSubmit, Reservation.checkAvailability.
    rewrite H. simpl.
    destruct (env _); reflexivity.
Qed.

Lemma checkAvailability_skips_query_on_empty_slot_witness :
  run (Reservation.checkAvailability (Sample.booking Sample.noDate))
      Store.offline (Sample.booking Sample.noDate)
  = (true, Sample.booking Sample.noDate, [])
  /\ map fst (calls (events (run (Reservation.handleSubmit 7 (Sample.booking Sample.noDate))
                                 Store.offline (Sample.booking Sample.noDate))))
     = [addDoc "reservations" (Reservation.mkDoc Sample.noDate 7)].
Proof.
  apply (checkAvailability_skips_query_on_empty_slot 7 (Sample.booking Sample.noDate)).
  left. reflexivity.
Defined.

(** C8 as stated fails.  With the slot 2025-03-01 19:00 requested, the
    boolean [checkAvailability] returns when its query is rejected is the
    one it returns when the slot is taken, so no reading of that boolean
    tells [Unknown] from [Conflict]. *)
Lemma checkAvailability_unknown_not_distinct :
  ~ exists classify : bool -> Reservation.Availability,
      tellsApart classify
        (result (run (Reservation.checkAvailability (Sample.booking Sample.dinner))
                     (Bookings.serve []) (Sample.booking Sample.dinner)))
        (result (run (Reservation.checkAvailability (Sample.booking Sample.dinner))
                     (Bookings.serve [Sample.earlier]) (Sample.booking Sample.dinner)))
        (result (run (Reservation.checkAvailability (Sample.booking Sample.dinner))
                     Store.offline (Sample.booking Sample.dinner))).
Proof.
  intros [classify (_ & Htaken & Hfailed)].
  vm_compute in Htaken, Hfailed. congruence.
Qed.

(** C8, amended.  When the availability query is rejected,
    [checkAvailability] returns [false], the value it also returns for a
    slot that is taken; [handleSubmit] then shows the "slot already
    booked" message, stops loading, and issues no remote call besides the
    rejected query: no reservation is created. *)
Theorem checkAvailability_failure_reported_as_taken
        (now : Z) (s : Reservation.State)
        (env : RemoteCall Reservation.ReservationDoc -> Response Reservation.ReservationDoc) :
  Reservation.date (Reservation.formData s) <> "" ->
  Reservation.time (Reservation.formData s) <> "" ->
  env (getDocs (Reservation.slotQuery (Reservation.formData s))) = Rejected ->
  result (run (Reservation.checkAvailability s) env s) = false
  /\ (forall env' d ds,
        env' (getDocs (Reservation.slotQuery (Reservation.formData s)))
        = Snapshot (d :: ds) ->
        result (run (Reservation.checkAvailability s) env' s) = false)
  /\ Reservation.errorMsg (final (run (Reservation.handleSubmit now s) env s))
     = Reservation.slot_taken
  /\ Reservation.loading (final (run (Reservation.handleSubmit now s) env s)) = false
  /\ Reservation.submitted (final (run (Reservation.handleSubmit now s) env s)) = false
  /\ map fst (calls (events (run (Reservation.handleSubmit now s) env s)))
     = [getDocs (Reservation.slotQuery (Reservation.formData s))].
Proof.
  intros Hd Ht Hrej.
  pose proof (guard_filled s Hd Ht) as G.
  unfold Reservation.handleSubmit, Reservation.checkAvailability.
  rewrite G. simpl. rewrite Hrej. simpl.
  repeat split.
  intros env' d ds H'. rewrite H'. reflexivity.
Qed.

Lemma checkAvailability_failure_reported_as_taken_witness :
  result (run (Reservation.checkAvailability (Sample.booking Sample.dinner))
              Store.offline (Sample.booking Sample.dinner)) = false
  /\ Reservation.errorMsg
       (final (run (Reservation.handleSubmit 7 (Sample.booking Sample.dinner))
                   Store.offline (Sample.booking Sample.dinner)))
     = Reservation.slot_taken.
Proof.
  destruct (@checkAvailability_failure_reported_as_taken
              7 (Sample.booking Sample.dinner) Store.offline)
    as (H1 & _ & H3 & _).
  - simpl. discriminate.
  - simpl. discriminate.
  - reflexivity.
  - split; [exact H1 | exact H3].
Defined.

(** ** Reviews screen *)

(** C3: the code departs from the limit its own doc comment and alert
    announce.  With three reviews featured in the local snapshot,
    toggling a fourth to featured is not refused: the remote update is
    issued and, once it is fulfilled, four reviews are featured
    locally. *)
Theorem reviews_toggleFeatured_lets_fourth_through :
  let s := Sample.threeFeatured in
  let r := run (Reviews.toggleFeatured s (Sample.review "r4" false))
               (Store.serve []) s in
  List.length (filter Reviews.featured (Reviews.reviews s)) = Reviews.documentedLimit
  /\ map fst (calls (events r))
     = [updateDoc "reviews" "r4" (Reviews.mkDoc (Some true))]
  /\ notices (events r) = []
  /\ List.length (filter Reviews.featured (Reviews.reviews (final r))) = 4.
Proof. repeat split. Qed.

(** ** The featured gate *)

Section GateFacts.

Lemma products_gate_open (s : Products.State) (product : Products.Product)
      (env : RemoteCall Products.ProductDoc -> Response Products.ProductDoc) :
  negb (Products.truthy (Products.featured product))
  && (Products.MAX_FEATURED <=? Products.featuredCount (Products.products s))%nat = false ->
  let r := run (Products.toggleFeatured s product) env s in
  map fst (calls (events r))
  = [updateDoc "products" (Products.id product)
               (Products.featuredOnly
                  (Some (negb (Products.truthy (Products.featured product)))))]
  /\ map snd (calls (events r))
     = [Products.setProducts
          (map (fun p => if (Products.id p =? Products.id product)%string
                         then Products.toggled product else p)) s]
  /\ final r
     = Products.setProducts
         (map (fun p => if (Products.id p =? Products.id product)%string
                        then Products.toggled product else p)) s.
Proof.
  intro G. unfold Products.toggleFeatured. rewrite G. simpl.
  destruct (env _); simpl; repeat split.
Qed.

Lemma products_gate_shut (s : Products.State) (product : Products.Product)
      (env : RemoteCall Products.ProductDoc -> Response Products.ProductDoc) :
  negb (Products.truthy (Products.featured product))
  && (Products.MAX_FEATURED <=? Products.featuredCount (Products.products s))%nat = true ->
  run (Products.toggleFeatured s product) env s = (tt, s, [EvNotice (toast warning)]).
Proof.
  intro G. unfold Products.toggleFeatured. rewrite G. reflexivity.
Qed.

Lemma reviews_gate_open (s : Reviews.State) (review : Reviews.Review)
      (env : RemoteCall Reviews.ReviewDoc -> Response Reviews.ReviewDoc) :
  negb (Reviews.featured review)
  && (6 <=? List.length (filter Reviews.featured (Reviews.reviews s)))%nat = false ->
  let r := run (Reviews.toggleFeatured s review) env s in
  map fst (calls (events r))
  = [updateDoc "reviews" (Reviews.id review)
               (Reviews.mkDoc (Some (negb (Reviews.featured review))))]
  /\ map snd (calls (events r)) = [s].
Proof.
  intro G. unfold Reviews.toggleFeatured.
  replace (filter (fun r => Reviews.featured r) (Reviews.reviews s))
    with (filter Reviews.featured (Reviews.reviews s)) by reflexivity.
  rewrite G. simpl.
  destruct (env _); simpl; split; reflexivity.
Qed.

Lemma reviews_gate_shut (s : Reviews.State) (review : Reviews.Review)
      (env : RemoteCall Reviews.ReviewDoc -> Response Reviews.ReviewDoc) :
  negb (Reviews.featured review)
  && (6 <=? List.length (filter Reviews.featured (Reviews.reviews s)))%nat = true ->
  run (Reviews.toggleFeatured s review) env s = (tt, s, [EvNotice alert]).
Proof.
  intro G. unfold Reviews.toggleFeatured.
  replace (filter (fun r => Reviews.featured r) (Reviews.reviews s))
    with (filter Reviews.featured (Reviews.reviews s)) by reflexivity.
  rewrite G. reflexivity.
Qed.

End GateFacts.

(** C4.  In both screens the toggle is the gate [trySetFeatured], with
    [newValue] the negation of the entity's current flag and [K] the
    screen's limit ([MAX_FEATURED] for products, the literal 6 for
    reviews).  The call is refused, leaving the local state as it was,
    issuing no remote call and only warning the user, exactly when
    [newValue] is true and the snapshot already holds at least [K]
    featured entities.  In every other case (so always when [newValue]
    is false) the change is permitted and carried out: the update of the
    entity's [featured] field to [newValue] is issued, and the entity
    gets that value in the local list, on the products screen before the
    update is issued and whatever its outcome, on the reviews screen once
    the update is fulfilled. *)
Theorem trySetFeatured_gate :
  (forall (s : Products.State) (product : Products.Product)
          (env : RemoteCall Products.ProductDoc -> Response Products.ProductDoc),
      let newValue := negb (Products.truthy (Products.featured product)) in
      let r := run (Products.toggleFeatured s product) env s in
      let changed :=
        Products.setProducts
          (map (fun p => if (Products.id p =? Products.id product)%string
                         then Products.toggled product else p)) s in
      ((final r = s /\ calls (events r) = [] /\ notices (events r) = [toast warning])
       <-> (newValue = true
            /\ Products.MAX_FEATURED <= Products.featuredCount (Products.products s)))
      /\ (newValue = false
          \/ Products.featuredCount (Products.products s) < Products.MAX_FEATURED ->
          calls (events r)
          = [(updateDoc "products" (Products.id product)
                        (Products.featuredOnly (Some newValue)), changed)]
          /\ final r = changed
          /\ Products.featured (Products.toggled product) = Some newValue))
  /\
  (forall (s : Reviews.State) (review : Reviews.Review)
          (env : RemoteCall Reviews.ReviewDoc -> Response Reviews.ReviewDoc),
      let newValue := negb (Reviews.featured review) in
      let r := run (Reviews.toggleFeatured s review) env s in
      let write :=
        updateDoc "reviews" (Reviews.id review) (Reviews.mkDoc (Some newValue)) in
      ((final r = s /\ calls (events r) = [] /\ notices (events r) = [alert])
       <-> (newValue = true
            /\ 6 <= List.length (filter Reviews.featured (Reviews.reviews s))))
      /\ (newValue = false
          \/ List.length (filter Reviews.featured (Reviews.reviews s)) < 6 ->
          calls (events r) = [(write, s)]
          /\ (env write <> Rejected ->
              final r
              = Reviews.setReviews
                  (map (fun x => if (Reviews.id x =? Reviews.id review)%string
                                 then Reviews.withFeatured x newValue else x)) s)
          /\ (env write = Rejected -> final r = s))).
Proof.
  split.
  - intros s product env newValue r changed.
    destruct (negb (Products.truthy (Products.featured product))
              && (Products.MAX_FEATURED <=? Products.featuredCount (Products.products s))%nat)
      eqn:G.
    + pose proof (products_gate_shut s product env G) as R.
      subst r. rewrite R.
      apply andb_true_iff in G. destruct G as [G1 G2].
      apply Nat.leb_le in G2.
      split; [split; intros _; repeat split; assumption |].
      intros [N | L]; [subst newValue; congruence | lia].
    + destruct (products_gate_open s product env G) as (C1 & C2 & F).
      fold r in C1, C2, F.
      assert (calls (events r)
              = [(updateDoc "products" (Products.id product)
                            (Products.featuredOnly (Some newValue)), changed)]) as C.
      { destruct (calls (events r)) as [| [c st] [| ? ?]]; try discriminate.
        simpl in C1, C2. inversion C1; inversion C2; subst. reflexivity. }
      split; [split |].
      * intros (_ & E & _). rewrite E in C. discriminate.
      * intros [N L]. apply Nat.leb_le in L. subst newValue.
        rewrite N, L in G. discriminate.
      * intros _. split; [exact C |]. split; [exact F | reflexivity].
  - intros s review env newValue r write.
    destruct (negb (Reviews.featured review)
              && (6 <=? List.length (filter Reviews.featured (Reviews.reviews s)))%nat)
      eqn:G.
    + pose proof (reviews_gate_shut s review env G) as R.
      subst r. rewrite R.
      apply andb_true_iff in G. destruct G as [G1 G2].
      apply Nat.leb_le in G2.
      split; [split; intros _; repeat split; assumption |].
      intros [N | L]; [subst newValue; congruence | lia].
    + destruct (reviews_gate_open s review env G) as (C1 & C2).
      fold r in C1, C2.
      assert (calls (events r) = [(write, s)]) as C.
      { destruct (calls (events r)) as [| [c st] [| ? ?]]; try discriminate.
        simpl in C1, C2. inversion C1; inversion C2; subst. reflexivity. }
      split; [split |].
      * intros (_ & E & _). rewrite E in C. discriminate.
      * intros [N L]. apply Nat.leb_le in L. subst newValue.
        rewrite N, L in G. discriminate.
      * intros _. split; [exact C |].
        subst r. unfold Reviews.toggleFeatured.
        replace (filter (fun r => Reviews.featured r) (Reviews.reviews s))
          with (filter Reviews.featured (Reviews.reviews s)) by reflexivity.
        rewrite G. simpl. fold newValue. fold write.
        destruct (env write); simpl; split; intro H; try congruence; reflexivity.
Qed.

Lemma trySetFeatured_gate_witness :
  calls (events (run (Products.toggleFeatured Scenario.fullShelf
                                              (Sample.product "p1" 1 true))
                     Store.offline Scenario.fullShelf))
  = [(updateDoc "products" "p1" (Products.featuredOnly (Some false)),
      Products.setProducts
        (map (fun p => if (Products.id p =? "p1")%string
                       then Products.toggled (Sample.product "p1" 1 true) else p))
        Scenario.fullShelf)]
  /\ Reviews.reviews
       (final (run (Reviews.toggleFeatured Sample.threeFeatured
                                           (Sample.review "r4" false))
                   (Store.serve []) Sample.threeFeatured))
     = [Sample.review "r1" true; Sample.review "r2" true;
        Sample.review "r3" true; Sample.review "r4" true].
Proof.
  destruct trySetFeatured_gate as [Hp Hr].
  split.
  - destruct (Hp Scenario.fullShelf (Sample.product "p1" 1 true) Store.offline)
      as (_ & H).
    destruct H as (C & _); [left; reflexivity | exact C].
  - destruct (Hr Sample.threeFeatured (Sample.review "r4" false) (Store.serve []))
      as (_ & H).
    destruct H as (_ & F & _); [right; simpl; lia |].
    rewrite F; [reflexivity | simpl; discriminate].
Defined.

(** ** Failed commits on the products screen *)

Section RollbackFacts.
Import Products.

(** The delete path keeps the list it started from and puts it back
    when the remote delete is rejected. *)
Lemma handleDelete_restores_snapshot (s : State) (target : string)
      (env : RemoteCall ProductDoc -> Response ProductDoc) :
  toDeleteId s = Some target ->
  env (deleteDoc "products" target) = Rejected ->
  products (final (run (handleDelete s) env s)) = products s.
Proof.
  intros T R. unfold handleDelete. rewrite T.
  destruct (negb (nonEmpty target)); [reflexivity|].
  simpl. rewrite R. reflexivity.
Qed.

(** The toggle path has no such step: after a rejected update the list
    still holds the toggled copy. *)
Lemma toggleFeatured_keeps_optimistic_value (s : State) (product : Product)
      (env : RemoteCall ProductDoc -> Response ProductDoc) :
  negb (truthy (featured product))
  && (MAX_FEATURED <=? featuredCount (products s))%nat = false ->
  env (updateDoc "products" (id product)
                 (featuredOnly (Some (negb (truthy (featured product)))))) = Rejected ->
  products (final (run (toggleFeatured s product) env s))
  = map (fun p => if (id p =? id product)%string then toggled product else p)
        (products s).
Proof.
  intros G _.
  destruct (products_gate_open s product env G) as (_ & _ & F).
  rewrite F. reflexivity.
Qed.

(** On the reviews screen the local list is written only after the
    update is fulfilled, so a rejected update leaves it untouched. *)
Lemma reviews_toggle_failure_leaves_state (s : Reviews.State) (review : Reviews.Review)
      (env : RemoteCall Reviews.ReviewDoc -> Response Reviews.ReviewDoc) :
  env (updateDoc "reviews" (Reviews.id review)
                 (Reviews.mkDoc (Some (negb (Reviews.featured review))))) = Rejected ->
  final (run (Reviews.toggleFeatured s review) env s) = s.
Proof.
  intro R. unfold Reviews.toggleFeatured.
  destruct (negb (Reviews.featured review) && _); [reflexivity|].
  simpl. rewrite R. reflexivity.
Qed.
End RollbackFacts.

(** C1: the code does not do what the claim asks on the featured toggle
    of the products screen.  Product p1 is not featured; its toggle is
    applied to the local list, the remote update is rejected, the handler
    only reports the error, and the list still shows p1 as featured: the
    state before the mutation is not restored.  ([handleDelete], next to
    it, restores its snapshot: [handleDelete_restores_snapshot].) *)
Theorem toggleFeatured_failure_not_rolled_back :
  let p := Sample.product "p1" 100 false in
  let s := Sample.shelf [p] in
  let r := run (Products.toggleFeatured s p) Store.offline s in
  map fst (calls (events r))
  = [updateDoc "products" "p1" (Products.featuredOnly (Some true))]
  /\ notices (events r) = [console_error "toggleFeatured error:"; toast error]
  /\ map Products.featured (Products.products s) = [Some false]
  /\ map Products.featured (Products.products (final r)) = [Some true]
  /\ Products.products (final r) <> Products.products s.
Proof.
  repeat split. vm_compute. discriminate.
Qed.

(** ** Saving an edited product *)

Section SaveFacts.
Import Products.
Variable trim : string -> string.
Variable Number : string -> option Z.

Lemma run_validate (s s0 : State) env :
  run (validate trim Number s) env s0
  = (noErrors (formErrors trim Number (form s)),
     setErrors (formErrors trim Number (form s)) s0, []).
Proof. reflexivity. Qed.

(** The edit branch up to and including its awaited update. *)
Lemma handleSave_edit_issue (now : Z) (s : State) (ed : Product)
      (env : RemoteCall ProductDoc -> Response ProductDoc) :
  editing s = Some ed ->
  noErrors (formErrors trim Number (form s)) = true ->
  let pd := productData trim Number now (form s) in
  let applied :=
    setProducts (map (fun p => if (id p =? id ed)%string then spread p pd else p))
                (setErrors (formErrors trim Number (form s)) s) in
  exists rest,
    calls (events (run (handleSave trim Number now s) env s))
    = (updateDoc "products" (id ed) (writePayload pd), applied) :: rest
    /\ (env (updateDoc "products" (id ed) (writePayload pd)) <> Rejected ->
        rest = []
        /\ final (run (handleSave trim Number now s) env s) = setShowModal false applied).
Proof.
  intros E V pd applied.
  unfold handleSave. rewrite run_bind, run_validate. rewrite V. simpl.
  rewrite E. simpl. fold pd.
  destruct (env (updateDoc "products" (id ed) (writePayload pd))) eqn:R; simpl.
  - destruct (env (getDocs firstPageQuery)); simpl;
      eexists; (split; [reflexivity | intro N; congruence]).
  - eexists; split; [reflexivity | intros _; split; reflexivity].
  - eexists; split; [reflexivity | intros _; split; reflexivity].
  - eexists; split; [reflexivity | intros _; split; reflexivity].
Qed.

(** The create branch: the write is awaited first. *)
Lemma handleSave_create_issue (now : Z) (s : State)
      (env : RemoteCall ProductDoc -> Response ProductDoc) :
  editing s = None ->
  noErrors (formErrors trim Number (form s)) = true ->
  let pd := productData trim Number now (form s) in
  let before := setErrors (formErrors trim Number (form s)) s in
  exists rest,
    calls (events (run (handleSave trim Number now s) env s))
    = (addDoc "products" (writePayload pd), before) :: rest
    /\ (forall newId,
          env (addDoc "products" (writePayload pd)) = DocRef newId ->
          rest = []
          /\ final (run (handleSave trim Number now s) env s)
             = setShowModal false
                 (setProducts (fun prev => created newId now pd :: prev) before)).
Proof.
  intros E V pd before.
  unfold handleSave. rewrite run_bind, run_validate. rewrite V. simpl.
  rewrite E. simpl. fold pd.
  destruct (env (addDoc "products" (writePayload pd))) as [| docs | nid |] eqn:R;
    simpl.
  3: { eexists; split; [reflexivity |].
       intros i N. inversion N; subst. split; reflexivity. }
  all: destruct (env (getDocs firstPageQuery)); simpl;
    eexists; (split; [reflexivity | intros i N; discriminate]).
Qed.
End SaveFacts.

(** C2: the code overwrites [createdAt] on every edit.  [handleSave]
    builds one [productData], with [createdAt] set to the current time
    and [featured] to its creation default, for both branches; in the
    edit branch the edited product's local copy takes every field of it,
    and the same field set is sent to the remote update.  Whenever the
    clock differs from the product's [createdAt], the field changes on
    both sides. *)
Theorem handleSave_edit_overwrites_createdAt
        (trim : string -> string) (Number : string -> option Z)
        (now : Z) (s : Products.State) (ed : Products.Product)
        (env : RemoteCall Products.ProductDoc -> Response Products.ProductDoc) :
  Products.editing s = Some ed ->
  Products.noErrors (Products.formErrors trim Number (Products.form s)) = true ->
  exists fields visibleAtCall rest,
    calls (events (run (Products.handleSave trim Number now s) env s))
    = (updateDoc "products" (Products.id ed) fields, visibleAtCall) :: rest
    /\ Products.d_createdAt fields = Some now
    /\ forall p, In p (Products.products s) ->
                 Products.id p = Products.id ed ->
                 exists p', In p' (Products.products visibleAtCall)
                            /\ Products.id p' = Products.id p
                            /\ Products.createdAt p' = now.
Proof.
  intros E V.
  destruct (handleSave_edit_issue trim Number now s ed env E V) as (rest & C & _).
  eexists _, _, rest. split; [exact C|]. split; [reflexivity|].
  intros p I Hid. simpl.
  exists (Products.spread p (Products.productData trim Number now (Products.form s))).
  split; [| split; reflexivity].
  apply in_map_iff. exists p. split; [| exact I].
  rewrite Hid, String.eqb_refl. reflexivity.
Qed.

Lemma handleSave_edit_overwrites_createdAt_witness :
  exists fields visibleAtCall rest,
    calls (events (run (Products.handleSave Js.trim Js.Number 200 Sample.editingP1)
                       (Store.serve []) Sample.editingP1))
    = (updateDoc "products" "p1" fields, visibleAtCall) :: rest
    /\ Products.d_createdAt fields = Some 200%Z
    /\ forall p, In p (Products.products Sample.editingP1) ->
                 Products.id p = "p1" ->
                 exists p', In p' (Products.products visibleAtCall)
                            /\ Products.id p' = Products.id p
                            /\ Products.createdAt p' = 200%Z.
Proof.
  apply (handleSave_edit_overwrites_createdAt
           Js.trim Js.Number 200 Sample.editingP1 (Sample.product "p1" 100 true)
           (Store.serve [])).
  - reflexivity.
  - vm_compute. reflexivity.
Defined.

(** ** Paging through the products *)

Section PagingFacts.
Import Products Paging.

Lemma lastOf_none (docs : list Snap) : lastOf docs = None <-> docs = [].
Proof. destruct docs; simpl; split; congruence. Qed.

Lemma last_any_default {X} (l : list X) (x d d' : X) :
  last (x :: l) d = last (x :: l) d'.
Proof.
  revert x. induction l as [| y l IH]; intro x; [reflexivity|].
  change (last (y :: l) d = last (y :: l) d'). apply IH.
Qed.

Lemma lastOf_cons_cons (d x : Snap) (l : list Snap) :
  lastOf (d :: x :: l) = lastOf (x :: l).
Proof.
  unfold lastOf. f_equal.
  change (last (x :: l) d = last (x :: l) x). apply last_any_default.
Qed.

Lemma lastOf_app (l1 l2 : list Snap) :
  l2 <> [] -> lastOf (l1 ++ l2) = lastOf l2.
Proof.
  intro N. induction l1 as [| a l1 IH]; [reflexivity|].
  simpl app. destruct (l1 ++ l2) as [| b rest] eqn:E.
  - apply app_eq_nil in E. destruct E; contradiction.
  - rewrite lastOf_cons_cons. exact IH.
Qed.

Lemma lastOf_In (l : list Snap) (c : Snap) : lastOf l = Some c -> In c l.
Proof.
  induction l as [| a l IH]; [discriminate|].
  destruct l as [| b l].
  - simpl. intro H. inversion H. now left.
  - rewrite lastOf_cons_cons. intro H. right. apply IH, H.
Qed.

Lemma firstn_extend {X} (m k : nat) (l : list X) :
  firstn m l ++ firstn k (skipn m l) = firstn (m + k) l.
Proof.
  revert l. induction m as [| m IH]; intro l; [reflexivity|].
  destruct l as [| x l]; simpl.
  - now rewrite firstn_nil.
  - f_equal. apply IH.
Qed.

Lemma loadFirstPage_spec now env (s : State) docs :
  env (getDocs firstPageQuery) = Snapshot docs ->
  products (loadFirstPage now env s) = map (normalizeDoc now) docs
  /\ lastDoc (loadFirstPage now env s) = lastOf docs.
Proof.
  intro E. unfold loadFirstPage, fetchProducts. simpl. rewrite E.
  split; reflexivity.
Qed.

Lemma loadNextPage_spec now env (s : State) cursor docs :
  lastDoc s = Some cursor ->
  env (getDocs (nextPageQuery cursor)) = Snapshot docs ->
  products (loadNextPage now env s) = products s ++ map (normalizeDoc now) docs
  /\ lastDoc (loadNextPage now env s) = lastOf docs.
Proof.
  intros L E. unfold loadNextPage, loadMore. rewrite L. simpl. rewrite E.
  destruct docs; simpl; [rewrite app_nil_r |]; split; reflexivity.
Qed.

Lemma loadMore_exhausted now env (s : State) :
  lastDoc s = None -> run (loadMore now s) env s = (tt, s, []).
Proof. intro L. unfold loadMore. rewrite L. reflexivity. Qed.

End PagingFacts.

(** C5 as stated fails.  Ten of the twelve products are loaded; the next
    page holds two, fewer than [PAGE_SIZE], yet the cursor is still set
    after it: a short page does not exhaust the cursor. *)
Lemma short_page_leaves_cursor_live :
  ~ Paging.exhaustsOnShortPage 0 (Store.serve Sample.twelve)
      (Paging.loadNextPage 0 (Store.serve Sample.twelve)
         (Paging.loadFirstPage 0 (Store.serve Sample.twelve) (Sample.shelf []))).
Proof.
  intro H.
  specialize (H (Sample.doc "p03" 3) [Sample.doc "p02" 2; Sample.doc "p01" 1]
                eq_refl eq_refl).
  destruct H as [_ H].
  assert (2 < Products.PAGE_SIZE) as L by (unfold Products.PAGE_SIZE; lia).
  specialize (H L). vm_compute in H. discriminate.
Qed.

(** C5, amended.  The cursor becomes exhausted exactly when a page query
    returns no document at all, on the first page as on the later ones;
    [loadMore] on an exhausted cursor returns at once, issuing no query
    and reporting nothing.  With page size 5 and 12 products:
    [fetchProducts] loads 5 and leaves the cursor set, two [loadMore]
    calls load 5 and then 2, the cursor still set after each; the third
    [loadMore] issues one more query, gets an empty page and exhausts the
    cursor; a fourth does nothing. *)
Theorem cursor_exhausted_on_empty_page :
  (forall now env (s : Products.State) docs,
      env (getDocs Products.firstPageQuery) = Snapshot docs ->
      (Paging.exhausted (Paging.loadFirstPage now env s) <-> docs = []))
  /\ (forall now env (s : Products.State) cursor docs,
         Products.lastDoc s = Some cursor ->
         env (getDocs (Products.nextPageQuery cursor)) = Snapshot docs ->
         (Paging.exhausted (Paging.loadNextPage now env s) <-> docs = [])
         /\ Products.products (Paging.loadNextPage now env s)
            = Products.products s ++ map (Products.normalizeDoc now) docs)
  /\ (forall now env (s : Products.State),
         Paging.exhausted s ->
         run (Products.loadMore now s) env s = (tt, s, []))
  /\ (let env := Store.serve Sample.twelve in
      let s1 := Paging.loadFirstPage 0 env (Sample.shelf []) in
      let s2 := Paging.loadNextPage 0 env s1 in
      let s3 := Paging.loadNextPage 0 env s2 in
      let s4 := Paging.loadNextPage 0 env s3 in
      map (fun s => List.length (Products.products s)) [s1; s2; s3; s4]
      = [5; 10; 12; 12]
      /\ map Products.lastDoc [s1; s2; s3; s4]
         = [Some (Sample.doc "p08" 8); Some (Sample.doc "p03" 3);
            Some (Sample.doc "p01" 1); None]
      /\ map fst (calls (events (run (Products.loadMore 0 s3) env s3)))
         = [getDocs (Products.nextPageQuery (Sample.doc "p01" 1))]
      /\ run (Products.loadMore 0 s4) env s4 = (tt, s4, [])).
Proof.
  split; [| split; [| split]].
  - intros now env s docs E.
    destruct (loadFirstPage_spec now env s docs E) as [_ L].
    unfold Paging.exhausted. rewrite L. apply lastOf_none.
  - intros now env s cursor docs C E.
    destruct (loadNextPage_spec now env s cursor docs C E) as [P L].
    split; [| exact P].
    unfold Paging.exhausted. rewrite L. apply lastOf_none.
  - intros now env s X. apply loadMore_exhausted, X.
  - vm_compute. repeat split.
Qed.

Lemma cursor_exhausted_on_empty_page_witness :
  (Paging.exhausted
     (Paging.loadNextPage 0 (Store.serve Sample.twelve)
        (Products.setLastDoc (Some (Sample.doc "p01" 1)) (Sample.shelf [])))
   <-> @nil Products.Snap = [])
  /\ run (Products.loadMore 0 (Sample.shelf [])) (Store.serve Sample.twelve)
         (Sample.shelf [])
     = (tt, Sample.shelf [], []).
Proof.
  destruct cursor_exhausted_on_empty_page as (_ & Hnext & Hstop & _).
  split.
  - apply (Hnext 0%Z (Store.serve Sample.twelve)
                 (Products.setLastDoc (Some (Sample.doc "p01" 1)) (Sample.shelf []))
                 (Sample.doc "p01" 1) []); reflexivity.
  - apply (Hstop 0%Z (Store.serve Sample.twelve) (Sample.shelf [])). reflexivity.
Defined.

(** ** The order of a store's listing *)

Section OrderFacts.

Lemma ascii_compare_refl (a : Ascii.ascii) : Ascii.compare a a = Eq.
Proof. unfold Ascii.compare. apply N.compare_refl. Qed.

Lemma string_compare_refl (x : string) : String.compare x x = Eq.
Proof.
  induction x as [| a x IH]; [reflexivity |]. simpl.
  rewrite ascii_compare_refl. exact IH.
Qed.

Lemma string_compare_trans (x y z : string) :
  String.compare x y = Lt -> String.compare y z = Lt -> String.compare x z = Lt.
Proof.
  revert y z. induction x as [| a x IH]; intros [| b y] [| c z]; simpl;
    try discriminate; try reflexivity.
  destruct (Ascii.compare a b) eqn:AB; try discriminate.
  - apply Ascii.compare_eq_iff in AB. subst b.
    destruct (Ascii.compare a c); try discriminate; [apply IH | reflexivity].
  - intros _. destruct (Ascii.compare b c) eqn:BC; try discriminate.
    + apply Ascii.compare_eq_iff in BC. subst c. rewrite AB. reflexivity.
    + intros _. unfold Ascii.compare in *.
      apply N.compare_lt_iff in AB. apply N.compare_lt_iff in BC.
      pose proof (N.lt_trans _ _ _ AB BC) as AC.
      apply N.compare_lt_iff in AC. rewrite AC. reflexivity.
Qed.

Lemma value_compare_eq (a b : Value) : Db.value_compare a b = Eq -> a = b.
Proof.
  destruct a as [x | x | x], b as [y | y | y]; simpl; try discriminate.
  - intro H. apply String.compare_eq_iff in H. now subst.
  - intro H. apply Z.compare_eq in H. now subst.
  - destruct x, y; simpl; congruence.
Qed.

Lemma value_compare_refl (a : Value) : Db.value_compare a a = Eq.
Proof.
  destruct a as [x | x | x]; simpl.
  - apply string_compare_refl.
  - apply Z.compare_refl.
  - destruct x; reflexivity.
Qed.

Lemma value_compare_antisym (a b : Value) :
  Db.value_compare a b = CompOpp (Db.value_compare b a).
Proof.
  destruct a as [x | x | x], b as [y | y | y]; simpl; try reflexivity.
  - apply String.compare_antisym.
  - apply Z.compare_antisym.
  - destruct x, y; reflexivity.
Qed.

Lemma value_compare_trans (a b c : Value) :
  Db.value_compare a b = Lt -> Db.value_compare b c = Lt -> Db.value_compare a c = Lt.
Proof.
  destruct a as [x | x | x], b as [y | y | y], c as [z | z | z]; simpl;
    try discriminate; try reflexivity.
  - apply string_compare_trans.
  - intros H1 H2. apply Z.compare_lt_iff in H1. apply Z.compare_lt_iff in H2.
    apply Z.compare_lt_iff. exact (Z.lt_trans _ _ _ H1 H2).
  - destruct x, y, z; simpl; congruence.
Qed.

Lemma field_compare_eq (a b : option Value) : Db.field_compare a b = Eq -> a = b.
Proof.
  destruct a, b; simpl; try discriminate; [| reflexivity].
  intro H. apply value_compare_eq in H. now subst.
Qed.

Lemma field_compare_antisym (a b : option Value) :
  Db.field_compare a b = CompOpp (Db.field_compare b a).
Proof. destruct a, b; simpl; try reflexivity. apply value_compare_antisym. Qed.

Lemma field_compare_trans (a b c : option Value) :
  Db.field_compare a b = Lt -> Db.field_compare b c = Lt -> Db.field_compare a c = Lt.
Proof.
  destruct a, b, c; simpl; try discriminate; try reflexivity.
  apply value_compare_trans.
Qed.

Lemma key_compare_eq (a b : option Value * string) : Db.key_compare a b = Eq -> a = b.
Proof.
  unfold Db.key_compare. destruct a as [fa ia], b as [fb ib]. simpl.
  destruct (Db.field_compare fa fb) eqn:F; try discriminate.
  intro H. apply field_compare_eq in F. apply String.compare_eq_iff in H. now subst.
Qed.

Lemma key_compare_refl (a : option Value * string) : Db.key_compare a a = Eq.
Proof.
  unfold Db.key_compare. destruct a as [[v |] i]; simpl.
  - rewrite value_compare_refl. apply string_compare_refl.
  - apply string_compare_refl.
Qed.

Lemma key_compare_antisym (a b : option Value * string) :
  Db.key_compare a b = CompOpp (Db.key_compare b a).
Proof.
  unfold Db.key_compare. rewrite (field_compare_antisym (fst a) (fst b)).
  destruct (Db.field_compare (fst b) (fst a)); simpl; try reflexivity.
  apply String.compare_antisym.
Qed.

Lemma key_compare_trans (a b c : option Value * string) :
  Db.key_compare a b = Lt -> Db.key_compare b c = Lt -> Db.key_compare a c = Lt.
Proof.
  unfold Db.key_compare.
  destruct (Db.field_compare (fst a) (fst b)) eqn:AB; try discriminate.
  - apply field_compare_eq in AB. rewrite AB.
    destruct (Db.field_compare (fst b) (fst c)); try discriminate;
      [apply string_compare_trans | reflexivity].
  - intros _.
    destruct (Db.field_compare (fst b) (fst c)) eqn:BC; try discriminate.
    + apply field_compare_eq in BC. rewrite <- BC, AB. reflexivity.
    + intros _. rewrite (field_compare_trans _ _ _ AB BC). reflexivity.
Qed.

Variable D : Type.
Variable field : D -> string -> option Value.
Variable o : option (string * Direction).

Lemma precedes_trans (a b c : QueryDocumentSnapshot D) :
  Db.precedes field o a b = true -> Db.precedes field o b c = true ->
  Db.precedes field o a c = true.
Proof.
  unfold Db.precedes. destruct (Db.direction o).
  - destruct (Db.key_compare (Db.key field o a) (Db.key field o b)) eqn:AB;
      try discriminate.
    destruct (Db.key_compare (Db.key field o b) (Db.key field o c)) eqn:BC;
      try discriminate.
    now rewrite (key_compare_trans _ _ _ AB BC).
  - destruct (Db.key_compare (Db.key field o a) (Db.key field o b)) eqn:AB;
      try discriminate.
    destruct (Db.key_compare (Db.key field o b) (Db.key field o c)) eqn:BC;
      try discriminate.
    intros _ _.
    rewrite key_compare_antisym in AB, BC.
    apply (f_equal CompOpp) in AB, BC. rewrite CompOpp_involutive in AB, BC.
    simpl in AB, BC.
    rewrite key_compare_antisym, (key_compare_trans _ _ _ BC AB). reflexivity.
Qed.

Lemma precedes_asym (a b : QueryDocumentSnapshot D) :
  Db.precedes field o a b = true -> Db.precedes field o b a = false.
Proof.
  unfold Db.precedes. rewrite (key_compare_antisym (Db.key field o b)).
  destruct (Db.direction o);
    destruct (Db.key_compare (Db.key field o a) (Db.key field o b));
    simpl; congruence.
Qed.

Lemma precedes_irrefl (a : QueryDocumentSnapshot D) :
  Db.precedes field o a a = false.
Proof.
  unfold Db.precedes. rewrite key_compare_refl.
  destruct (Db.direction o); reflexivity.
Qed.

Lemma precedes_total (a b : QueryDocumentSnapshot D) :
  id a <> id b ->
  Db.precedes field o a b = false -> Db.precedes field o b a = true.
Proof.
  intro N. unfold Db.precedes. rewrite (key_compare_antisym (Db.key field o b)).
  destruct (Db.key_compare (Db.key field o a) (Db.key field o b)) eqn:AB.
  - apply key_compare_eq in AB. exfalso. apply N.
    apply (f_equal snd) in AB. exact AB.
  - destruct (Db.direction o); simpl; congruence.
  - destruct (Db.direction o); simpl; congruence.
Qed.
End OrderFacts.

(** ** Sorting a collection *)

Section SortFacts.
Variable A : Type.
Variable ident : A -> string.
Variable prec : A -> A -> bool.
Hypothesis prec_trans :
  forall a b c, prec a b = true -> prec b c = true -> prec a c = true.
Hypothesis prec_total :
  forall a b, ident a <> ident b -> prec a b = false -> prec b a = true.

Lemma insert_perm (x : A) (l : list A) : Permutation (insert prec x l) (x :: l).
Proof.
  induction l as [| y l IH]; simpl; [apply Permutation_refl |].
  destruct (prec x y); [apply Permutation_refl |].
  eapply Permutation_trans; [apply perm_skip, IH | apply perm_swap].
Qed.

Lemma sort_perm (l : list A) : Permutation (sort prec l) l.
Proof.
  induction l as [| x l IH]; simpl; [constructor |].
  eapply Permutation_trans; [apply insert_perm | apply perm_skip, IH].
Qed.

Lemma insert_sorted (x : A) (l : list A) :
  StronglySorted (fun a b => prec a b = true) l ->
  ~ In (ident x) (map ident l) ->
  StronglySorted (fun a b => prec a b = true) (insert prec x l).
Proof.
  induction l as [| y l IH]; simpl; intros S N.
  - repeat constructor.
  - apply StronglySorted_inv in S. destruct S as [S F].
    destruct (prec x y) eqn:P.
    + constructor; [constructor; assumption |].
      constructor; [exact P |].
      eapply Forall_impl; [| exact F]. intros z Hz. simpl in Hz.
      exact (prec_trans _ _ _ P Hz).
    + constructor.
      * apply IH; [exact S |]. intro I. apply N. now right.
      * assert (prec y x = true) as Pyx.
        { apply prec_total; [| exact P]. intro E. apply N. left. now symmetry. }
        apply Forall_forall. intros z Iz.
        apply (Permutation_in _ (insert_perm x l)) in Iz.
        destruct Iz as [<- | Iz]; [exact Pyx |].
        rewrite Forall_forall in F. apply F, Iz.
Qed.

Lemma sort_sorted (l : list A) :
  NoDup (map ident l) ->
  StronglySorted (fun a b => prec a b = true) (sort prec l).
Proof.
  induction l as [| x l IH]; simpl; intro ND; [constructor |].
  inversion ND as [| ? ? N ND']; subst.
  apply insert_sorted; [apply IH, ND' |].
  intro I. apply N.
  apply (Permutation_in _ (Permutation_map ident (sort_perm l))). exact I.
Qed.
End SortFacts.

Section ListingFacts.
Import Products Paging.

Lemma filter_ids_sub {X} (key : X -> string) (p : X -> bool) (l : list X) :
  NoDup (map key l) -> NoDup (map key (filter p l)).
Proof.
  induction l as [| a l IH]; simpl; intro ND; [constructor |].
  inversion ND as [| ? ? N ND']; subst.
  destruct (p a); simpl; [| apply IH, ND'].
  constructor; [| apply IH, ND'].
  intro I. apply N. apply in_map_iff in I. destruct I as (x & Hx & Ix).
  apply filter_In in Ix. apply in_map_iff. exists x. split; [exact Hx | apply Ix].
Qed.

Lemma filter_all {X} (p : X -> bool) (l : list X) :
  Forall (fun x => p x = true) l -> filter p l = l.
Proof.
  induction 1 as [| a l Ha _ IH]; simpl; [reflexivity |]. now rewrite Ha, IH.
Qed.

(** In a listing without repetition, what comes strictly after the last
    of the first [m] documents is what is left after dropping [m]. *)
Lemma after_cursor_sorted (prec : Snap -> Snap -> bool) (l : list Snap) :
  (forall a b, prec a b = true -> prec b a = false) ->
  (forall a, prec a a = false) ->
  StronglySorted (fun a b => prec a b = true) l ->
  forall m c, lastOf (firstn m l) = Some c -> filter (prec c) l = skipn m l.
Proof.
  intros Asym Irr. induction l as [| d rest IH]; intros S m c H.
  - rewrite firstn_nil in H. discriminate.
  - destruct m as [| m]; [discriminate |].
    apply StronglySorted_inv in S. destruct S as [S F].
    rewrite firstn_cons in H. rewrite skipn_cons. simpl filter.
    destruct (firstn m rest) as [| x l] eqn:Fm.
    + simpl in H. inversion H; subst c. rewrite Irr.
      rewrite (filter_all _ _ F).
      destruct m; [reflexivity |]. destruct rest; [reflexivity | discriminate].
    + rewrite lastOf_cons_cons in H.
      assert (In c rest) as I.
      { apply lastOf_In in H. rewrite <- Fm in H.
        rewrite <- (firstn_skipn m rest). apply in_or_app. now left. }
      rewrite Forall_forall in F. rewrite (Asym _ _ (F c I)).
      apply IH; [exact S |]. rewrite Fm. exact H.
Qed.

Lemma firstn_short {X} (k : nat) (l : list X) :
  firstn (Nat.min k (List.length l)) l = firstn k l.
Proof.
  destruct (Nat.le_ge_cases k (List.length l)) as [H | H].
  - now rewrite Nat.min_l.
  - rewrite Nat.min_r by exact H. now rewrite firstn_all, firstn_all2.
Qed.

Lemma field_createdAt (d : ProductDoc) :
  ProductsDb.field d "createdAt" = option_map VNum (d_createdAt d).
Proof. reflexivity. Qed.

Variable db : ProductsDb.Database.
Hypothesis distinct : NoDup (map (@Firestore.id ProductDoc) (db "products")).

Lemma listing_is_sort :
  ProductsDb.listing db
  = sort (Db.precedes ProductsDb.field (Some ("createdAt", desc)))
         (filter ProductsDb.hasCreatedAt (db "products")).
Proof.
  unfold ProductsDb.listing, Db.listed. simpl.
  rewrite (filter_all (fun _ : Snap => true)) by (apply Forall_forall; reflexivity).
  f_equal. apply filter_ext. intro d.
  unfold Db.present, ProductsDb.hasCreatedAt. rewrite field_createdAt.
  destruct (d_createdAt (data d)); reflexivity.
Qed.

Lemma listing_perm :
  Permutation (ProductsDb.listing db) (filter ProductsDb.hasCreatedAt (db "products")).
Proof. rewrite listing_is_sort. apply sort_perm. Qed.

Lemma listing_sorted :
  StronglySorted
    (fun a b => Db.precedes ProductsDb.field (Some ("createdAt", desc)) a b = true)
    (ProductsDb.listing db).
Proof.
  rewrite listing_is_sort.
  apply (sort_sorted Snap (@Firestore.id ProductDoc)).
  - apply precedes_trans.
  - apply precedes_total.
  - apply filter_ids_sub, distinct.
Qed.

Lemma precedes_storeOrder now (a b : Snap) :
  ProductsDb.hasCreatedAt a = true ->
  ProductsDb.hasCreatedAt b = true ->
  Db.precedes ProductsDb.field (Some ("createdAt", desc)) a b = true ->
  ProductsDb.storeOrder (normalizeDoc now a) (normalizeDoc now b).
Proof.
  unfold ProductsDb.hasCreatedAt, Db.precedes, Db.key_compare, Db.key,
    ProductsDb.storeOrder, normalizeDoc. rewrite !field_createdAt.
  destruct (d_createdAt (data a)) as [ta |]; [| discriminate].
  destruct (d_createdAt (data b)) as [tb |]; [| discriminate]. simpl.
  intros _ _.
  destruct (Z.compare ta tb) eqn:C; try discriminate.
  - apply Z.compare_eq in C.
    destruct (String.compare (Firestore.id a) (Firestore.id b)) eqn:I;
      try discriminate.
    intros _. right. split; [exact C | reflexivity].
  - intros _. left. apply Z.compare_gt_iff in C. exact C.
Qed.

Lemma listing_storeOrder now :
  StronglySorted ProductsDb.storeOrder (map (normalizeDoc now) (ProductsDb.listing db)).
Proof.
  pose proof listing_sorted as S.
  assert (Forall (fun d => ProductsDb.hasCreatedAt d = true) (ProductsDb.listing db))
    as P.
  { apply Forall_forall. intros d I.
    apply (Permutation_in _ listing_perm) in I. apply filter_In in I. apply I. }
  induction S as [| a l S IH F]; simpl; [constructor |].
  inversion P as [| ? ? Pa Pl]; subst.
  constructor; [apply IH, Pl |].
  apply Forall_map. rewrite Forall_forall in *. intros b Ib.
  apply precedes_storeOrder; [exact Pa | apply Pl, Ib | apply F, Ib].
Qed.

(** One [loadMore] from a state that holds the first [m] documents. *)
Lemma loadNextPage_extends now m s :
  loadedUpTo now (ProductsDb.listing db) m s ->
  let s' := loadNextPage now (ProductsDb.serve db) s in
  let n := List.length (ProductsDb.listing db) in
  (m = n /\ exhausted s' /\ products s' = products s)
  \/ (m < n /\ loadedUpTo now (ProductsDb.listing db) (Nat.min (m + PAGE_SIZE) n) s').
Proof.
  intros (Hm & Hp & Hl) s' n.
  set (L := ProductsDb.listing db) in *.
  destruct (lastDoc s) as [cursor |] eqn:Lc.
  2: { exfalso. symmetry in Hl. apply lastOf_none in Hl.
       apply (f_equal (@List.length Snap)) in Hl.
       rewrite firstn_length_le in Hl by lia. simpl in Hl. lia. }
  assert (ProductsDb.serve db (getDocs (nextPageQuery cursor))
          = Snapshot (firstn PAGE_SIZE (skipn m L))) as E.
  { change (ProductsDb.serve db (getDocs (nextPageQuery cursor)))
      with (Snapshot
              (firstn PAGE_SIZE
                 (filter (Db.precedes ProductsDb.field (Some ("createdAt", desc)) cursor)
                    L))).
    exact (f_equal (fun page => Snapshot (firstn PAGE_SIZE page))
             (after_cursor_sorted
                (Db.precedes ProductsDb.field (Some ("createdAt", desc))) L
                (precedes_asym _ _ _) (precedes_irrefl _ _ _) listing_sorted
                m cursor (eq_sym Hl))). }
  destruct (loadNextPage_spec now (ProductsDb.serve db) s cursor _ Lc E) as [P' L'].
  fold s' in P', L'.
  pose proof (length_skipn m L) as Hlen.
  destruct (Nat.eq_dec m n) as [Heq | Hne].
  - left. split; [exact Heq |]. unfold exhausted.
    rewrite skipn_all2 in P', L' by (unfold n in Heq; lia).
    rewrite firstn_nil in P', L'.
    simpl in P', L'. rewrite app_nil_r in P'. split; assumption.
  - right. unfold n in *. split; [lia |].
    set (k := Nat.min PAGE_SIZE (List.length L - m)).
    assert (Nat.min (m + PAGE_SIZE) (List.length L) = m + k) as Hmk
        by (unfold k; lia).
    rewrite Hmk.
    assert (1 <= k) as Hk by (unfold k, PAGE_SIZE; lia).
    assert (firstn PAGE_SIZE (skipn m L) = firstn k (skipn m L)) as Fk.
    { unfold k. rewrite <- Hlen. symmetry. apply firstn_short. }
    repeat split; try (unfold k; lia).
    + rewrite P', Hp, Fk, <- map_app, firstn_extend. reflexivity.
    + rewrite L', <- firstn_extend, <- Fk. symmetry. apply lastOf_app.
      destruct (skipn m L) eqn:K; [simpl in Hlen; lia | discriminate].
Qed.

Lemma loadFirstPage_prefix now s :
  let s' := loadFirstPage now (ProductsDb.serve db) s in
  let n := List.length (ProductsDb.listing db) in
  (n = 0 /\ exhausted s' /\ products s' = [])
  \/ (0 < n /\ loadedUpTo now (ProductsDb.listing db) (Nat.min PAGE_SIZE n) s').
Proof.
  intros s' n.
  set (L := ProductsDb.listing db) in *.
  assert (ProductsDb.serve db (getDocs firstPageQuery) = Snapshot (firstn PAGE_SIZE L))
    as E by reflexivity.
  destruct (loadFirstPage_spec now (ProductsDb.serve db) s _ E) as [P1 L1].
  fold s' in P1, L1.
  destruct L as [| d rest] eqn:HL.
  - left. rewrite firstn_nil in P1, L1. repeat split; assumption.
  - right. unfold n. split; [simpl; lia |].
    rewrite <- (firstn_short PAGE_SIZE (d :: rest)) in P1, L1.
    repeat split; try assumption.
    + unfold PAGE_SIZE. simpl. lia.
    + lia.
Qed.
End ListingFacts.

(** C6 as stated fails.  Two products created at the same instant, ["a"]
    and ["b"]: the first page holds both, the next [loadMore] finds nothing
    more and exhausts the cursor, and the products are listed ["b"] before
    ["a"].  The query orders by [createdAt] alone, so the store breaks the
    tie by descending id, not by ascending id. *)
Lemma paging_ties_by_id_descending :
  let env := ProductsDb.serve ProductsDb.twins in
  let first := Paging.loadFirstPage 0 env (Sample.shelf []) in
  let last := Paging.loadNextPage 0 env first in
  Paging.exhausted last
  /\ map Products.id (Products.products last) = ["b"; "a"]%string
  /\ map Products.createdAt (Products.products last) = [1; 1]%Z
  /\ ~ StronglySorted Paging.documentedOrder (Products.products last).
Proof.
  cbv zeta. repeat split.
  intro S.
  assert (Products.products
            (Paging.loadNextPage 0 (ProductsDb.serve ProductsDb.twins)
               (Paging.loadFirstPage 0 (ProductsDb.serve ProductsDb.twins)
                  (Sample.shelf [])))
          = map (Products.normalizeDoc 0) [Sample.doc "b" 1; Sample.doc "a" 1]) as E
      by reflexivity.
  rewrite E in S. clear E.
  apply StronglySorted_inv in S. destruct S as [_ F].
  apply Forall_inv in F. destruct F as [F | [_ F]].
  - vm_compute in F. discriminate.
  - vm_compute in F. discriminate.
Qed.

(** C6, amended.  Over a store whose products have distinct ids, the
    store's listing for the page queries holds exactly the products that
    have a [createdAt], each once, newest first and, at the same
    [createdAt], by descending id.  [fetchProducts] loads the first
    [PAGE_SIZE] of that listing.  A [loadMore] from a state that holds the
    first [m] products of the listing loads the next [PAGE_SIZE] of them
    (all that is left, when fewer are left) behind the ones already there;
    when nothing is left it changes no product and exhausts the cursor, and
    from then on [loadMore] asks the store nothing. *)
Theorem paging_calls_follow_store_listing (db : ProductsDb.Database) (now : Z) :
  NoDup (map (@Firestore.id Products.ProductDoc) (db "products"%string)) ->
  let listing := ProductsDb.listing db in
  let env := ProductsDb.serve db in
  Permutation listing (filter ProductsDb.hasCreatedAt (db "products"%string))
  /\ NoDup (map Products.id (map (Products.normalizeDoc now) listing))
  /\ StronglySorted ProductsDb.storeOrder (map (Products.normalizeDoc now) listing)
  /\ (forall s,
        let s' := Paging.loadFirstPage now env s in
        Products.products s'
        = map (Products.normalizeDoc now) (firstn Products.PAGE_SIZE listing)
        /\ Products.lastDoc s' = Products.lastOf (firstn Products.PAGE_SIZE listing)
        /\ (listing <> [] ->
            Paging.loadedUpTo now listing
              (Nat.min Products.PAGE_SIZE (List.length listing)) s'))
  /\ (forall m s,
        Paging.loadedUpTo now listing m s ->
        let s' := Paging.loadNextPage now env s in
        (m < List.length listing ->
         Paging.loadedUpTo now listing
           (Nat.min (m + Products.PAGE_SIZE) (List.length listing)) s')
        /\ (m = List.length listing ->
            Paging.exhausted s' /\ Products.products s' = Products.products s))
  /\ (forall s,
        Paging.exhausted s ->
        run (Products.loadMore now s) env s = (tt, s, [])).
Proof.
  intros ND listing env.
  split; [apply listing_perm |].
  split.
  { rewrite map_map.
    rewrite (map_ext _ (@Firestore.id Products.ProductDoc)) by reflexivity.
    apply (Permutation_NoDup
             (Permutation_sym (Permutation_map _ (listing_perm db)))).
    apply filter_ids_sub, ND. }
  split; [apply listing_storeOrder, ND |].
  split; [| split].
  - intros s s'.
    assert (env (getDocs Products.firstPageQuery)
            = Snapshot (firstn Products.PAGE_SIZE listing)) as E by reflexivity.
    destruct (loadFirstPage_spec now env s _ E) as [P1 L1].
    split; [exact P1 |]. split; [exact L1 |].
    intro NE.
    destruct (loadFirstPage_prefix db now s) as [(Z0 & _) | (_ & U)].
    + exfalso. apply NE. apply length_zero_iff_nil. exact Z0.
    + exact U.
  - intros m s U s'.
    destruct (loadNextPage_extends db ND now m s U) as [(E & X & P) | (Lt & U')].
    + split; [intro H; exfalso; unfold listing in H; lia |].
      intros _. split; assumption.
    + split; [intros _; exact U' |]. intro H. exfalso. unfold listing in H. lia.
  - intros s X. apply loadMore_exhausted, X.
Qed.

Lemma paging_calls_follow_store_listing_witness :
  NoDup (map (@Firestore.id Products.ProductDoc) (ProductsDb.shop "products"%string))
  /\ map Products.id
       (Products.products
          (Paging.loadFirstPage 0 (ProductsDb.serve ProductsDb.shop) (Sample.shelf [])))
     = ["g"; "f"; "e"; "d"; "c"]%string
  /\ Paging.loadedUpTo 0 (ProductsDb.listing ProductsDb.shop) 7
       (Paging.loadNextPage 0 (ProductsDb.serve ProductsDb.shop)
          (Paging.loadFirstPage 0 (ProductsDb.serve ProductsDb.shop) (Sample.shelf []))).
Proof.
  assert (NoDup (map (@Firestore.id Products.ProductDoc)
                   (ProductsDb.shop "products"%string))) as ND.
  { vm_compute.
    repeat (constructor; [simpl; intuition discriminate |]). constructor. }
  destruct (paging_calls_follow_store_listing ProductsDb.shop 0%Z ND)
    as (_ & _ & _ & First & Next & _).
  split; [exact ND |].
  destruct (First (Sample.shelf [])) as (P & _ & U).
  split.
  - rewrite P. reflexivity.
  - apply (Next 5 _ (U ltac:(discriminate))). vm_compute. repeat constructor.
Defined.

(** ** Local change and remote write: which comes first *)

Section OrderFacts.
Import Products.

Lemma handleDelete_issue (s : State) (target : string)
      (env : RemoteCall ProductDoc -> Response ProductDoc) :
  toDeleteId s = Some target ->
  target <> "" ->
  let applied :=
    setProducts (filter (fun p => negb (id p =? target)%string)) s in
  calls (events (run (handleDelete s) env s))
  = [(deleteDoc "products" target, applied)]
  /\ (env (deleteDoc "products" target) <> Rejected ->
      final (run (handleDelete s) env s)
      = setConfirmOpen false (setToDeleteId None applied)).
Proof.
  intros T N applied. unfold handleDelete. rewrite T.
  destruct target as [| a t]; [congruence |]. simpl.
  destruct (env _); simpl; split; try reflexivity; intro R; congruence.
Qed.
End OrderFacts.

(** C7 as stated fails.  On the reviews screen the toggle awaits the
    remote update first and changes the local list afterwards: while
    the update of review r1 is in flight the list still shows r1 as not
    featured, and it shows it as featured only once the update is
    fulfilled. *)
Lemma reviews_toggle_writes_remote_first :
  ~ appliedBeforeWrite Reviews.reviews
      (run (Reviews.toggleFeatured Sample.oneReview (Sample.review "r1" false))
           (Store.serve []) Sample.oneReview).
Proof.
  intro H.
  specialize (H (updateDoc "reviews" "r1" (Reviews.mkDoc (Some true)))
                Sample.oneReview (or_introl eq_refl) eq_refl).
  vm_compute in H. discriminate.
Qed.

(** C7, amended.  On the products screen an edit, a delete and a
    featured toggle change the local list before their remote write is
    issued: the list visible while the write is in flight is already the
    changed one, and it stays so when the write is fulfilled.  A product
    create and the featured toggle of the reviews screen do the opposite:
    the list visible while the write is in flight is the unchanged one,
    and the local change is made only after the write is fulfilled. *)
Theorem local_change_before_write_on_products_only :
  (forall trim Number now (s : Products.State) ed env,
      Products.editing s = Some ed ->
      Products.noErrors (Products.formErrors trim Number (Products.form s)) = true ->
      env (updateDoc "products" (Products.id ed)
                     (Products.writePayload
                        (Products.productData trim Number now (Products.form s))))
      <> Rejected ->
      let r := run (Products.handleSave trim Number now s) env s in
      let changed :=
        map (fun p => if (Products.id p =? Products.id ed)%string
                      then Products.spread p
                             (Products.productData trim Number now (Products.form s))
                      else p) (Products.products s) in
      map (fun cs => (fst cs, Products.products (snd cs))) (calls (events r))
      = [(updateDoc "products" (Products.id ed)
                    (Products.writePayload
                       (Products.productData trim Number now (Products.form s))),
          changed)]
      /\ Products.products (final r) = changed)
  /\ (forall (s : Products.State) target env,
         Products.toDeleteId s = Some target ->
         target <> "" ->
         env (deleteDoc "products" target) <> Rejected ->
         let r := run (Products.handleDelete s) env s in
         let changed :=
           filter (fun p => negb (Products.id p =? target)%string)
                  (Products.products s) in
         map (fun cs => (fst cs, Products.products (snd cs))) (calls (events r))
         = [(deleteDoc "products" target, changed)]
         /\ Products.products (final r) = changed)
  /\ (forall (s : Products.State) product env,
         negb (Products.truthy (Products.featured product))
         && (Products.MAX_FEATURED <=? Products.featuredCount (Products.products s))%nat
         = false ->
         let r := run (Products.toggleFeatured s product) env s in
         let changed :=
           map (fun p => if (Products.id p =? Products.id product)%string
                         then Products.toggled product else p)
               (Products.products s) in
         map (fun cs => (fst cs, Products.products (snd cs))) (calls (events r))
         = [(updateDoc "products" (Products.id product)
                       (Products.featuredOnly
                          (Some (negb (Products.truthy (Products.featured product))))),
             changed)]
         /\ Products.products (final r) = changed)
  /\ (forall trim Number now (s : Products.State) env newId,
         Products.editing s = None ->
         Products.noErrors (Products.formErrors trim Number (Products.form s)) = true ->
         env (addDoc "products"
                     (Products.writePayload
                        (Products.productData trim Number now (Products.form s))))
         = DocRef newId ->
         let r := run (Products.handleSave trim Number now s) env s in
         map (fun cs => (fst cs, Products.products (snd cs))) (calls (events r))
         = [(addDoc "products"
                    (Products.writePayload
                       (Products.productData trim Number now (Products.form s))),
             Products.products s)]
         /\ Products.products (final r)
            = Products.created newId now
                (Products.productData trim Number now (Products.form s))
              :: Products.products s)
  /\ (forall (s : Reviews.State) review env,
         negb (Reviews.featured review)
         && (6 <=? List.length (filter Reviews.featured (Reviews.reviews s)))%nat
         = false ->
         env (updateDoc "reviews" (Reviews.id review)
                        (Reviews.mkDoc (Some (negb (Reviews.featured review)))))
         <> Rejected ->
         let r := run (Reviews.toggleFeatured s review) env s in
         calls (events r)
         = [(updateDoc "reviews" (Reviews.id review)
                       (Reviews.mkDoc (Some (negb (Reviews.featured review)))), s)]
         /\ Reviews.reviews (final r)
            = map (fun x => if (Reviews.id x =? Reviews.id review)%string
                            then Reviews.withFeatured x (negb (Reviews.featured review))
                            else x) (Reviews.reviews s)).
Proof.
  split; [| split; [| split; [| split]]].
  - intros trim Number now s ed env E V R r changed.
    destruct (handleSave_edit_issue trim Number now s ed env E V) as (rest & C & F).
    destruct (F R) as [-> Fin]. subst r. rewrite C, Fin. split; reflexivity.
  - intros s target env T N R r changed.
    destruct (handleDelete_issue s target env T N) as [C F].
    subst r. rewrite C, (F R). split; reflexivity.
  - intros s product env G r changed.
    destruct (products_gate_open s product env G) as (C1 & C2 & F).
    subst r. rewrite F. split; [| reflexivity].
    destruct (calls (events (run (Products.toggleFeatured s product) env s)))
      as [| [c st] [| ? ?]]; try discriminate.
    simpl in C1, C2. inversion C1; inversion C2; subst. reflexivity.
  - intros trim Number now s env newId E V R r.
    destruct (handleSave_create_issue trim Number now s env E V) as (rest & C & F).
    destruct (F newId R) as [-> Fin]. subst r. rewrite C, Fin. split; reflexivity.
  - intros s review env G R r.
    destruct (reviews_gate_open s review env G) as (C1 & C2).
    split.
    + subst r.
      destruct (calls (events (run (Reviews.toggleFeatured s review) env s)))
        as [| [c st] [| ? ?]]; try discriminate.
      simpl in C1, C2. inversion C1; inversion C2; subst. reflexivity.
    + subst r. unfold Reviews.toggleFeatured.
      replace (filter (fun r => Reviews.featured r) (Reviews.reviews s))
        with (filter Reviews.featured (Reviews.reviews s)) by reflexivity.
      rewrite G. simpl.
      destruct (env _); try congruence; reflexivity.
Qed.

Lemma local_change_before_write_on_products_only_witness :
  map (fun cs => (fst cs, Products.products (snd cs)))
      (calls (events (run (Products.handleSave Js.trim Js.Number 200 Sample.editingP1)
                          (Store.serve []) Sample.editingP1)))
  = [(updateDoc "products" "p1"
                (Products.writePayload
                   (Products.productData Js.trim Js.Number 200 Sample.latteForm)),
      [Products.mkProduct "p1" "Latte" "hot" 45 (Some "") (Some "") 200 (Some false)])]
  /\ Reviews.reviews
       (final (run (Reviews.toggleFeatured Sample.oneReview (Sample.review "r1" false))
                   (Store.serve []) Sample.oneReview))
     = [Sample.review "r1" true].
Proof.
  destruct local_change_before_write_on_products_only as (Hedit & _ & _ & _ & Hrev).
  split.
  - apply (Hedit Js.trim Js.Number 200%Z Sample.editingP1
                 (Sample.product "p1" 100 true) (Store.serve [])).
    + reflexivity.
    + vm_compute. reflexivity.
    + simpl. discriminate.
  - apply (Hrev Sample.oneReview (Sample.review "r1" false) (Store.serve [])).
    + reflexivity.
    + simpl. discriminate.
Defined.

(** ** Two mutations in flight *)

Section FrameFacts.
Variables D S : Type.

(** A handler cannot see what is in flight: invoked on a busy page it
    does what it does on an idle one, and its call joins the others. *)
Lemma advance_frame (p : Proc D S unit) (pg : Page D S) :
  advance p pg
  = mkPage (visible (advance p (idle D (visible pg))))
           (inflight pg ++ inflight (advance p (idle D (visible pg))))
           (issued pg ++ issued (advance p (idle D (visible pg)))).
Proof.
  revert pg. induction p as [u | f k IH | n k IH | c k _]; intro pg; simpl.
  - rewrite !app_nil_r. destruct pg; reflexivity.
  - rewrite IH. simpl. rewrite (IH (mkPage (f (visible pg)) [] [])). reflexivity.
  - apply IH.
  - reflexivity.
Qed.

Lemma advance_issues_at_visible (p : Proc D S unit) (s : S) sp :
  inflight (advance p (idle D s)) = [sp] ->
  issued (advance p (idle D s))
  = [(pending_call sp, visible (advance p (idle D s)))].
Proof.
  revert s. induction p as [u | f k IH | n k IH | c k _]; intros s H; simpl in *.
  - discriminate.
  - apply IH, H.
  - apply IH, H.
  - inversion H; subst. reflexivity.
Qed.

Lemma invoke_on_busy_page (h : S -> Proc D S unit) (pg : Page D S) s' c :
  outcome h (visible pg) = Some (s', c) ->
  visible (step pg (Invoke h)) = s'
  /\ map (@pending_call D S) (inflight (step pg (Invoke h)))
     = map (@pending_call D S) (inflight pg) ++ [c]
  /\ issued (step pg (Invoke h)) = issued pg ++ [(c, s')].
Proof.
  unfold outcome. simpl step. intro O.
  destruct (inflight (advance (h (visible pg)) (idle D (visible pg))))
    as [| sp [| ? ?]] eqn:I; try discriminate.
  inversion O; subst; clear O.
  rewrite advance_frame, I. simpl.
  rewrite (advance_issues_at_visible _ _ _ I), map_app. repeat split.
Qed.
End FrameFacts.

Section ConsoleFacts.
Import Products Console.
Variable trim : string -> string.
Variable Number : string -> option Z.

(** When the write a control is suspended on aims at an existing
    document and is fulfilled, the rest of the handler leaves the list of
    products alone and awaits nothing more. *)
Lemma fulfilled_write_keeps_products (m : Mutation) (s : State) sp x :
  inflight (advance (press trim Number m s) (idle ProductDoc s)) = [sp] ->
  target (pending_call sp) = Some x ->
  forall pg : Page ProductDoc State,
    products (visible (advance (resume sp Fulfilled) pg)) = products (visible pg)
    /\ inflight (advance (resume sp Fulfilled) pg) = inflight pg.
Proof.
  intros I T pg. destruct m as [row | now |]; simpl in I.
  - destruct (find _ (products s)) as [p |]; [| discriminate].
    unfold toggleFeatured in I.
    destruct (negb (truthy (featured p)) && _); simpl in I; [discriminate |].
    inversion I; subst. simpl. split; reflexivity.
  - unfold handleSave in I. simpl in I.
    destruct (negb (noErrors (formErrors trim Number (form s)))); simpl in I;
      [discriminate |].
    destruct (editing s) as [ed |]; simpl in I; inversion I; subst.
    + simpl. split; reflexivity.
    + discriminate.
  - unfold handleDelete in I.
    destruct (toDeleteId s) as [t |]; [| discriminate].
    destruct (negb (nonEmpty t)); simpl in I; [discriminate |].
    inversion I; subst. simpl. split; reflexivity.
Qed.
End ConsoleFacts.

(** C9 as stated fails.  Product p1 is on screen, not featured.  Its
    checkbox is pressed twice before any remote call resolves: the
    second press is not held back, both updates of document p1 are in
    flight together. *)
Lemma second_mutation_not_queued :
  let pg :=
    schedule (idle Products.ProductDoc (Sample.shelf [Sample.product "p1" 100 false]))
      [Invoke (Console.press Js.trim Js.Number (Console.checkFeatured "p1"));
       Invoke (Console.press Js.trim Js.Number (Console.checkFeatured "p1"))] in
  map (@pending_call _ _) (inflight pg)
  = [updateDoc "products" "p1" (Products.featuredOnly (Some true));
     updateDoc "products" "p1" (Products.featuredOnly (Some false))]
  /\ ~ serialised pg.
Proof.
  split; [reflexivity |].
  unfold serialised. vm_compute. intro H.
  inversion H as [| ? ? N _]; subst. apply N. now left.
Qed.

(** C9, amended.  The products screen has no queue.  When a control is
    pressed while the write of an earlier one on the same document is
    still in flight (the interface possibly changing form or dialog state
    in between), its handler runs at once: its local change is made on
    top of the state the first one left, and its remote write is issued
    next to the first one's, both in flight together.  When both writes
    are then fulfilled, in either order, the list of products stays what
    the second handler made it. *)
Theorem mutations_not_queued
        (trim : string -> string) (Number : string -> option Z)
        (m1 m2 : Console.Mutation) (f : Products.State -> Products.State)
        (s s1 s2 : Products.State)
        (c1 c2 : RemoteCall Products.ProductDoc) (x : string) :
  outcome (Console.press trim Number m1) s = Some (s1, c1) ->
  outcome (Console.press trim Number m2) (f s1) = Some (s2, c2) ->
  target c1 = Some x ->
  target c2 = Some x ->
  let pg :=
    schedule (idle Products.ProductDoc s)
      [Invoke (Console.press trim Number m1); Ui f;
       Invoke (Console.press trim Number m2)] in
  visible pg = s2
  /\ map (@pending_call _ _) (inflight pg) = [c1; c2]
  /\ issued pg = [(c1, s1); (c2, s2)]
  /\ ~ serialised pg
  /\ Products.products
       (visible (schedule pg [Resolve _ 0 Fulfilled; Resolve _ 0 Fulfilled]))
     = Products.products s2
  /\ Products.products
       (visible (schedule pg [Resolve _ 1 Fulfilled; Resolve _ 0 Fulfilled]))
     = Products.products s2.
Proof.
  intros O1 O2 T1 T2 pg.
  unfold outcome in O1, O2.
  destruct (inflight (advance (Console.press trim Number m1 s) (idle _ s)))
    as [| sp1 [| ? ?]] eqn:I1; try discriminate.
  destruct (inflight (advance (Console.press trim Number m2 (f s1)) (idle _ (f s1))))
    as [| sp2 [| ? ?]] eqn:I2; try discriminate.
  injection O1 as V1 C1. injection O2 as V2 C2.
  pose proof (advance_issues_at_visible _ _ _ _ _ I1) as J1.
  pose proof (advance_issues_at_visible _ _ _ _ _ I2) as J2.
  rewrite V1, C1 in J1. rewrite V2, C2 in J2.
  assert (pg = mkPage s2 [sp1; sp2] [(c1, s1); (c2, s2)]) as E.
  { subst pg. unfold schedule. simpl fold_left.
    rewrite V1, I1, J1, advance_frame. simpl.
    rewrite I2, J2, V2. reflexivity. }
  rewrite E.
  pose proof (fulfilled_write_keeps_products trim Number m1 s sp1 x I1
                ltac:(rewrite C1; exact T1)) as K1.
  pose proof (fulfilled_write_keeps_products trim Number m2 (f s1) sp2 x I2
                ltac:(rewrite C2; exact T2)) as K2.
  split; [reflexivity |]. split; [simpl; rewrite C1, C2; reflexivity |].
  split; [reflexivity |]. split.
  - unfold serialised. simpl. rewrite C1, C2, T1, T2. simpl.
    intro H. inversion H as [| ? ? N _]; subst. apply N. now left.
  - split.
    + unfold schedule. simpl.
      destruct (K1 (mkPage s2 [sp2] [(c1, s1); (c2, s2)])) as [P1 F1].
      rewrite F1. simpl.
      destruct (K2 (mkPage
                      (visible (advance (resume sp1 Fulfilled)
                                        (mkPage s2 [sp2] [(c1, s1); (c2, s2)])))
                      []
                      (issued (advance (resume sp1 Fulfilled)
                                       (mkPage s2 [sp2] [(c1, s1); (c2, s2)])))))
        as [P2 _].
      rewrite P2. exact P1.
    + unfold schedule. simpl.
      destruct (K2 (mkPage s2 [sp1] [(c1, s1); (c2, s2)])) as [P2 F2].
      rewrite F2. simpl.
      destruct (K1 (mkPage
                      (visible (advance (resume sp2 Fulfilled)
                                        (mkPage s2 [sp1] [(c1, s1); (c2, s2)])))
                      []
                      (issued (advance (resume sp2 Fulfilled)
                                       (mkPage s2 [sp1] [(c1, s1); (c2, s2)])))))
        as [P1 _].
      rewrite P1. exact P2.
Qed.

Lemma mutations_not_queued_witness :
  let s := Sample.shelf [Sample.product "p1" 100 false] in
  let pg :=
    schedule (idle Products.ProductDoc s)
      [Invoke (Console.press Js.trim Js.Number (Console.checkFeatured "p1"));
       Ui (fun st => st);
       Invoke (Console.press Js.trim Js.Number (Console.checkFeatured "p1"))] in
  visible pg = s
  /\ issued pg
     = [(updateDoc "products" "p1" (Products.featuredOnly (Some true)),
         Sample.shelf [Sample.product "p1" 100 true]);
        (updateDoc "products" "p1" (Products.featuredOnly (Some false)), s)]
  /\ ~ serialised pg.
Proof.
  destruct (mutations_not_queued
              Js.trim Js.Number
              (Console.checkFeatured "p1") (Console.checkFeatured "p1")
              (fun st => st)
              (Sample.shelf [Sample.product "p1" 100 false])
              (Sample.shelf [Sample.product "p1" 100 true])
              (Sample.shelf [Sample.product "p1" 100 false])
              (updateDoc "products" "p1" (Products.featuredOnly (Some true)))
              (updateDoc "products" "p1" (Products.featuredOnly (Some false)))
              "p1" eq_refl eq_refl eq_refl eq_refl)
    as (V & _ & I & N & _).
  split; [exact V |]. split; [exact I | exact N].
Defined.

(* ================================================================== *)
(** * Further properties of the handlers                               *)
(* ================================================================== *)

(** ** Products screen: delete *)

Section DeleteFacts.
Import Products.

Lemma nonEmpty_spec (x : string) : nonEmpty x = true <-> x <> "".
Proof. destruct x; simpl; split; congruence. Qed.

Lemma nonEmpty_false (x : string) : nonEmpty x = false <-> x = "".
Proof. destruct x; simpl; split; congruence. Qed.
End DeleteFacts.

(** X1.  When the remote delete is fulfilled, [handleDelete] has removed
    from the local list exactly the products whose id is the selected one
    and kept all the others; it issued that one [deleteDoc] and nothing
    else, cleared the selection and closed the dialog. *)
Theorem handleDelete_removes_exactly_target
        (s : Products.State) (target : string)
        (env : RemoteCall Products.ProductDoc -> Response Products.ProductDoc) :
  Products.toDeleteId s = Some target ->
  target <> "" ->
  env (deleteDoc "products" target) <> Rejected ->
  let r := run (Products.handleDelete s) env s in
  (forall p, In p (Products.products (final r))
             <-> In p (Products.products s) /\ Products.id p <> target)
  /\ map fst (calls (events r)) = [deleteDoc "products" target]
  /\ Products.toDeleteId (final r) = None
  /\ Products.confirmOpen (final r) = false.
Proof.
  intros T N R r.
  destruct (handleDelete_issue s target env T N) as [C F].
  subst r. rewrite C, (F R). simpl.
  split; [| split; [reflexivity | split; reflexivity]].
  intro p. rewrite filter_In, negb_true_iff, String.eqb_neq. reflexivity.
Qed.

Lemma handleDelete_removes_exactly_target_witness :
  map Products.id
      (Products.products
         (final (run (Products.handleDelete
                        (Products.setToDeleteId (Some "p1")
                           (Sample.shelf [Sample.product "p1" 1 false;
                                          Sample.product "p2" 2 true])))
                     (Store.serve [])
                     (Products.setToDeleteId (Some "p1")
                        (Sample.shelf [Sample.product "p1" 1 false;
                                       Sample.product "p2" 2 true])))))
  = ["p2"]
  /\ forall p,
       In p (Products.products
               (final (run (Products.handleDelete
                              (Products.setToDeleteId (Some "p1")
                                 (Sample.shelf [Sample.product "p1" 1 false;
                                                Sample.product "p2" 2 true])))
                           (Store.serve [])
                           (Products.setToDeleteId (Some "p1")
                              (Sample.shelf [Sample.product "p1" 1 false;
                                             Sample.product "p2" 2 true])))))
       <-> In p [Sample.product "p1" 1 false; Sample.product "p2" 2 true]
           /\ Products.id p <> "p1".
Proof.
  split; [reflexivity |].
  destruct (handleDelete_removes_exactly_target
              (Products.setToDeleteId (Some "p1")
                 (Sample.shelf [Sample.product "p1" 1 false;
                                Sample.product "p2" 2 true]))
              "p1" (Store.serve []))
    as (H & _).
  - reflexivity.
  - discriminate.
  - simpl. discriminate.
  - exact H.
Defined.

(** X2.  When the remote delete is rejected, [handleDelete] puts the
    whole list back: the final state is the one it started from, but for
    the cleared selection and the closed dialog, and the user has been
    told of the failure. *)
Theorem handleDelete_rejected_restores_state
        (s : Products.State) (target : string)
        (env : RemoteCall Products.ProductDoc -> Response Products.ProductDoc) :
  Products.toDeleteId s = Some target ->
  target <> "" ->
  env (deleteDoc "products" target) = Rejected ->
  let r := run (Products.handleDelete s) env s in
  final r = Products.setConfirmOpen false (Products.setToDeleteId None s)
  /\ Products.products (final r) = Products.products s
  /\ notices (events r) = [console_error "handleDelete error:"; toast error].
Proof.
  intros T N R r. subst r. unfold Products.handleDelete. rewrite T.
  destruct target as [| a t]; [congruence |]. simpl. rewrite R. simpl.
  repeat split.
Qed.

Lemma handleDelete_rejected_restores_state_witness :
  Products.products
    (final (run (Products.handleDelete
                   (Products.setToDeleteId (Some "p1")
                      (Sample.shelf [Sample.product "p1" 1 false])))
                Store.offline
                (Products.setToDeleteId (Some "p1")
                   (Sample.shelf [Sample.product "p1" 1 false]))))
  = [Sample.product "p1" 1 false].
Proof.
  destruct (handleDelete_rejected_restores_state
              (Products.setToDeleteId (Some "p1")
                 (Sample.shelf [Sample.product "p1" 1 false]))
              "p1" Store.offline)
    as (_ & H & _).
  - reflexivity.
  - discriminate.
  - reflexivity.
  - exact H.
Defined.

(** X3.  [handleDelete] touches the store exactly when a non-empty id is
    selected: with no selection, or with the empty string selected, it
    returns at once, leaving the state as it is and reporting nothing. *)
Theorem handleDelete_needs_selection
        (s : Products.State)
        (env : RemoteCall Products.ProductDoc -> Response Products.ProductDoc) :
  (calls (events (run (Products.handleDelete s) env s)) = []
   <-> (Products.toDeleteId s = None \/ Products.toDeleteId s = Some ""))
  /\ (calls (events (run (Products.handleDelete s) env s)) = [] ->
      run (Products.handleDelete s) env s = (tt, s, [])).
Proof.
  unfold Products.handleDelete.
  destruct (Products.toDeleteId s) as [[| a t] |]; simpl.
  - split; [split; auto | reflexivity].
  - destruct (env _); simpl;
      (split; [split; [discriminate | intros [H | H]; discriminate]
              | discriminate]).
  - split; [split; auto | reflexivity].
Qed.

(** ** Products screen: saving the form *)

Section FormFacts.
Import Products.
Variable trim : string -> string.
Variable Number : string -> option Z.

Lemma noErrors_acceptable (f : FormState) :
  noErrors (formErrors trim Number f) = true <-> acceptable trim Number f.
Proof.
  unfold noErrors, formErrors, acceptable. simpl.
  rewrite !andb_true_iff, !negb_true_iff, !negb_false_iff, !nonEmpty_spec.
  destruct (f_price f) as [| a t] eqn:P; simpl.
  - split; [intros [_ H]; discriminate | intros (_ & _ & H & _); congruence].
  - destruct (Number (String a t)) as [n |] eqn:Nn.
    + destruct (n <? 0)%Z eqn:L.
      * split; [intros [_ H]; discriminate |].
        intros (_ & _ & _ & m & M & Hm). inversion M; subst.
        apply Z.ltb_lt in L. lia.
      * split.
        -- intros [[H1 H2] _]. repeat split; try assumption; try discriminate.
           exists n. split; [reflexivity |]. apply Z.ltb_ge in L. exact L.
        -- intros (H1 & H2 & _). repeat split; assumption.
    + split; [intros [_ H]; discriminate |].
      intros (_ & _ & _ & m & M & _). discriminate.
Qed.

Lemma handleSave_invalid (now : Z) (s : State)
      (env : RemoteCall ProductDoc -> Response ProductDoc) :
  noErrors (formErrors trim Number (form s)) = false ->
  run (handleSave trim Number now s) env s
  = (tt, setErrors (formErrors trim Number (form s)) s, []).
Proof.
  intro V. unfold handleSave. rewrite run_bind, run_validate, V. reflexivity.
Qed.
End FormFacts.

(** X4.  [handleSave] touches the store exactly when the form passes
    [validate]: name and category not blank once trimmed, price not empty,
    numeric and not negative.  Otherwise it records the errors and does
    nothing else: no remote call, no notification, the products
    unchanged. *)
Theorem handleSave_writes_only_valid_forms
        (trim : string -> string) (Number : string -> option Z)
        (now : Z) (s : Products.State)
        (env : RemoteCall Products.ProductDoc -> Response Products.ProductDoc) :
  (calls (events (run (Products.handleSave trim Number now s) env s)) <> []
   <-> acceptable trim Number (Products.form s))
  /\ (calls (events (run (Products.handleSave trim Number now s) env s)) = [] ->
      run (Products.handleSave trim Number now s) env s
      = (tt, Products.setErrors
               (Products.formErrors trim Number (Products.form s)) s, [])).
Proof.
  destruct (Products.noErrors (Products.formErrors trim Number (Products.form s)))
    eqn:V.
  - assert (calls (events (run (Products.handleSave trim Number now s) env s)) <> [])
      as NE.
    { destruct (Products.editing s) as [ed |] eqn:E.
      - destruct (handleSave_edit_issue trim Number now s ed env E V) as (rest & C & _).
        rewrite C. discriminate.
      - destruct (handleSave_create_issue trim Number now s env E V) as (rest & C & _).
        rewrite C. discriminate. }
    split; [split; [intros _; apply noErrors_acceptable, V | intros _; exact NE] |].
    intro H. contradiction.
  - rewrite (handleSave_invalid trim Number now s env V). simpl.
    split; [split; [congruence |] | reflexivity].
    intro A. apply noErrors_acceptable in A. congruence.
Qed.

Section EditFacts.
Import Products.

Lemma map_replace_ids {A} (key : A -> string) (k : string) (g : A -> A) (l : list A) :
  (forall a, key (g a) = key a) ->
  map key (map (fun a => if (key a =? k)%string then g a else a) l) = map key l.
Proof.
  intro G. induction l as [| a l IH]; [reflexivity |]. simpl.
  rewrite IH. destruct (key a =? k)%string; [rewrite G |]; reflexivity.
Qed.

Lemma map_replace_const_ids (p' : Product) (l : list Product) :
  map id (map (fun a => if (id a =? id p')%string then p' else a) l) = map id l.
Proof.
  induction l as [| a l IH]; [reflexivity |]. simpl.
  rewrite IH. destruct (id a =? id p')%string eqn:E; [| reflexivity].
  apply String.eqb_eq in E. now rewrite E.
Qed.

Lemma filter_ids_NoDup (t : string) (l : list Product) :
  NoDup (map id l) ->
  NoDup (map id (filter (fun p => negb (id p =? t)%string) l)).
Proof.
  induction l as [| a l IH]; simpl; intro ND; [constructor |].
  inversion ND as [| ? ? Hn ND']; subst.
  destruct (negb (id a =? t)%string); simpl; [| apply IH, ND'].
  constructor; [| apply IH, ND'].
  intro I. apply Hn. apply in_map_iff in I. destruct I as (x & Hx & Ix).
  apply filter_In in Ix. apply in_map_iff. exists x. split; [exact Hx | apply Ix].
Qed.
End EditFacts.

(** X5.  The three handlers that change a product in place or remove it
    never introduce an id and never duplicate one.  A featured toggle
    (whatever the store answers) and a saved edit (its update not
    rejected) leave the list of ids as it is, in the same order; a delete
    (whatever the store answers) leaves a list whose ids were all
    there.  So ids that are distinct stay distinct. *)
Theorem product_ids_stay_distinct :
  (forall (s : Products.State) (product : Products.Product) env,
      map Products.id
          (Products.products (final (run (Products.toggleFeatured s product) env s)))
      = map Products.id (Products.products s))
  /\ (forall trim Number now (s : Products.State) ed env,
         Products.editing s = Some ed ->
         Products.noErrors (Products.formErrors trim Number (Products.form s)) = true ->
         env (updateDoc "products" (Products.id ed)
                        (Products.writePayload
                           (Products.productData trim Number now (Products.form s))))
         <> Rejected ->
         map Products.id
             (Products.products (final (run (Products.handleSave trim Number now s) env s)))
         = map Products.id (Products.products s))
  /\ (forall (s : Products.State) env,
         incl (map Products.id
                   (Products.products (final (run (Products.handleDelete s) env s))))
              (map Products.id (Products.products s))
         /\ (NoDup (map Products.id (Products.products s)) ->
             NoDup (map Products.id
                        (Products.products
                           (final (run (Products.handleDelete s) env s)))))).
Proof.
  split; [| split].
  - intros s product env.
    destruct (negb (Products.truthy (Products.featured product))
              && (Products.MAX_FEATURED <=? Products.featuredCount (Products.products s))%nat)
      eqn:G.
    + rewrite (products_gate_shut s product env G). reflexivity.
    + destruct (products_gate_open s product env G) as (_ & _ & F).
      rewrite F. simpl.
      exact (map_replace_const_ids (Products.toggled product) (Products.products s)).
  - intros trim Number now s ed env E V R.
    destruct (handleSave_edit_issue trim Number now s ed env E V) as (rest & _ & F).
    destruct (F R) as [_ Fin]. rewrite Fin. simpl.
    apply (map_replace_ids Products.id (Products.id ed)
             (fun p => Products.spread p
                         (Products.productData trim Number now (Products.form s)))).
    reflexivity.
  - intros s env.
    assert (Products.products (final (run (Products.handleDelete s) env s))
            = Products.products s
            \/ exists t,
                 Products.products (final (run (Products.handleDelete s) env s))
                 = filter (fun p => negb (Products.id p =? t)%string)
                          (Products.products s)) as [-> | [t ->]].
    { unfold Products.handleDelete.
      destruct (Products.toDeleteId s) as [t |]; [| left; reflexivity].
      destruct (negb (Products.nonEmpty t)); [left; reflexivity |].
      simpl. destruct (env (deleteDoc "products" t)); simpl;
        [left; reflexivity | right; exists t; reflexivity ..]. }
    + split; [apply incl_refl | auto].
    + split; [| apply filter_ids_NoDup].
      intros i I. apply in_map_iff in I. destruct I as (x & Hx & Ix).
      apply filter_In in Ix. apply in_map_iff. exists x.
      split; [exact Hx | apply Ix].
Qed.

Lemma product_ids_stay_distinct_witness :
  map Products.id
      (Products.products
         (final (run (Products.handleSave Js.trim Js.Number 200 Sample.editingP1)
                     (Store.serve []) Sample.editingP1)))
  = ["p1"].
Proof.
  destruct product_ids_stay_distinct as (_ & Hedit & _).
  apply (Hedit Js.trim Js.Number 200%Z Sample.editingP1
               (Sample.product "p1" 100 true) (Store.serve [])).
  - reflexivity.
  - vm_compute. reflexivity.
  - simpl. discriminate.
Defined.

Section CountFacts.
Variable A : Type.
Variable key : A -> string.
Variable flag : A -> bool.

(** Replacing the elements under one key by unflagged ones cannot raise
    the number of flagged elements. *)
Lemma replace_unflagged (k : string) (g : A -> A) (l : list A) :
  (forall a, flag (g a) = false) ->
  flagged flag (map (fun a => if (key a =? k)%string then g a else a) l)
  <= flagged flag l.
Proof.
  intro G. unfold flagged. induction l as [| a l IH]; [reflexivity |]. simpl.
  destruct (key a =? k)%string.
  - rewrite G. destruct (flag a); simpl; lia.
  - destruct (flag a); simpl; lia.
Qed.

Lemma replace_absent (k : string) (g : A -> A) (l : list A) :
  ~ In k (map key l) ->
  map (fun a => if (key a =? k)%string then g a else a) l = l.
Proof.
  induction l as [| a l IH]; [reflexivity |]. simpl. intro N.
  destruct (key a =? k)%string eqn:E.
  - apply String.eqb_eq in E. exfalso. apply N. now left.
  - rewrite IH; [reflexivity |]. intro I. apply N. now right.
Qed.

(** With distinct keys at most one element is replaced, so the number of
    flagged elements rises by at most one. *)
Lemma replace_one (k : string) (g : A -> A) (l : list A) :
  NoDup (map key l) ->
  flagged flag (map (fun a => if (key a =? k)%string then g a else a) l)
  <= S (flagged flag l).
Proof.
  unfold flagged. induction l as [| a l IH]; simpl; intro ND; [lia |].
  inversion ND as [| ? ? Hn ND']; subst.
  destruct (key a =? k)%string eqn:E.
  - apply String.eqb_eq in E. rewrite replace_absent by (rewrite <- E; exact Hn).
    destruct (flag (g a)), (flag a); simpl; lia.
  - specialize (IH ND'). destruct (flag a); simpl; lia.
Qed.
End CountFacts.

(** X6.  Saving an edit takes the product out of the featured set:
    [productData] carries [featured: false], so the update sent to the
    store sets the flag to false, every local product with the edited id
    ends up not featured, and the number of featured products does not
    grow. *)
Theorem handleSave_edit_unfeatures
        (trim : string -> string) (Number : string -> option Z)
        (now : Z) (s : Products.State) (ed : Products.Product)
        (env : RemoteCall Products.ProductDoc -> Response Products.ProductDoc) :
  Products.editing s = Some ed ->
  Products.noErrors (Products.formErrors trim Number (Products.form s)) = true ->
  env (updateDoc "products" (Products.id ed)
                 (Products.writePayload
                    (Products.productData trim Number now (Products.form s))))
  <> Rejected ->
  let r := run (Products.handleSave trim Number now s) env s in
  (exists fields,
      map fst (calls (events r)) = [updateDoc "products" (Products.id ed) fields]
      /\ Products.d_featured fields = Some false)
  /\ (forall p, In p (Products.products (final r)) ->
                Products.id p = Products.id ed ->
                Products.featured p = Some false)
  /\ Products.featuredCount (Products.products (final r))
     <= Products.featuredCount (Products.products s).
Proof.
  intros E V R r.
  destruct (handleSave_edit_issue trim Number now s ed env E V) as (rest & C & F).
  destruct (F R) as [-> Fin]. subst r. rewrite C, Fin. simpl.
  split; [eexists; split; reflexivity |]. split.
  - intros p I Hid. apply in_map_iff in I. destruct I as (q & Hq & _).
    destruct (Products.id q =? Products.id ed)%string eqn:Q.
    + subst p. reflexivity.
    + subst p. apply String.eqb_neq in Q. contradiction.
  - apply (replace_unflagged Products.Product Products.id
             (fun p => Products.truthy (Products.featured p))
             (Products.id ed)
             (fun p => Products.spread p
                         (Products.productData trim Number now (Products.form s)))
             (Products.products s)).
    reflexivity.
Qed.

Lemma handleSave_edit_unfeatures_witness :
  Products.featuredCount (Products.products Sample.editingP1) = 1
  /\ Products.featuredCount
       (Products.products
          (final (run (Products.handleSave Js.trim Js.Number 200 Sample.editingP1)
                      (Store.serve []) Sample.editingP1)))
     <= 1
  /\ forall p,
       In p (Products.products
               (final (run (Products.handleSave Js.trim Js.Number 200 Sample.editingP1)
                           (Store.serve []) Sample.editingP1))) ->
       Products.id p = "p1" -> Products.featured p = Some false.
Proof.
  destruct (handleSave_edit_unfeatures
              Js.trim Js.Number 200 Sample.editingP1 (Sample.product "p1" 100 true)
              (Store.serve []))
    as (_ & H & L).
  - reflexivity.
  - vm_compute. reflexivity.
  - simpl. discriminate.
  - split; [reflexivity |]. split; [exact L | exact H].
Defined.

(** X7.  When the update of an edit is rejected, [handleSave] reports
    the error, leaves the form open and fetches the first page again.
    If that fetch answers, the local list becomes that page (the edit
    is gone, and so is every page loaded beyond the first) and the
    cursor is the page's last document; if the fetch fails too, the list
    keeps showing the edit the store refused. *)
Theorem handleSave_rejected_edit_refetches
        (trim : string -> string) (Number : string -> option Z)
        (now : Z) (s : Products.State) (ed : Products.Product)
        (env : RemoteCall Products.ProductDoc -> Response Products.ProductDoc) :
  Products.editing s = Some ed ->
  Products.noErrors (Products.formErrors trim Number (Products.form s)) = true ->
  env (updateDoc "products" (Products.id ed)
                 (Products.writePayload
                    (Products.productData trim Number now (Products.form s))))
  = Rejected ->
  let r := run (Products.handleSave trim Number now s) env s in
  map fst (calls (events r))
  = [updateDoc "products" (Products.id ed)
               (Products.writePayload
                  (Products.productData trim Number now (Products.form s)));
     getDocs Products.firstPageQuery]
  /\ Products.showModal (final r) = Products.showModal s
  /\ (forall docs,
         env (getDocs Products.firstPageQuery) = Snapshot docs ->
         Products.products (final r) = map (Products.normalizeDoc now) docs
         /\ Products.lastDoc (final r) = Products.lastOf docs)
  /\ ((forall docs, env (getDocs Products.firstPageQuery) <> Snapshot docs) ->
      Products.products (final r)
      = map (fun p => if (Products.id p =? Products.id ed)%string
                      then Products.spread p
                             (Products.productData trim Number now (Products.form s))
                      else p) (Products.products s)
      /\ Products.lastDoc (final r) = Products.lastDoc s).
Proof.
  intros E V R r. subst r.
  unfold Products.handleSave. rewrite run_bind, run_validate, V. simpl.
  rewrite E. simpl. rewrite R. simpl.
  destruct (env (getDocs Products.firstPageQuery)) as [| docs | i |] eqn:G; simpl;
    (split; [reflexivity |]); (split; [reflexivity |]); split;
    try (intros d D; discriminate);
    try (intros _; split; reflexivity).
  - intros d D. inversion D; subst. split; reflexivity.
  - intro N. exfalso. apply (N docs). reflexivity.
Qed.

Lemma handleSave_rejected_edit_refetches_witness :
  map Products.id
      (Products.products
         (final (run (Products.handleSave Js.trim Js.Number 200 Sample.editingP1)
                     (fun c => match c with
                               | getDocs _ => Snapshot Sample.tied
                               | _ => Rejected
                               end)
                     Sample.editingP1)))
  = ["b"; "a"].
Proof.
  destruct (handleSave_rejected_edit_refetches
              Js.trim Js.Number 200 Sample.editingP1 (Sample.product "p1" 100 true)
              (fun c => match c with
                        | getDocs _ => Snapshot Sample.tied
                        | _ => Rejected
                        end))
    as (_ & _ & H & _).
  - reflexivity.
  - vm_compute. reflexivity.
  - reflexivity.
  - destruct (H Sample.tied eq_refl) as [P _]. rewrite P. reflexivity.
Defined.

(** X8.  Creating a product.  When the store answers the [addDoc] with a
    new id, the product is put at the head of the local list under that
    id, with the trimmed name and category of the form, the current time
    as [createdAt] and not featured; the rest of the list is untouched
    and the form is closed.  When the [addDoc] is rejected and the
    refetch that follows fails as well, nothing is added: the list is the
    one before, and the form stays open. *)
Theorem handleSave_create_outcome
        (trim : string -> string) (Number : string -> option Z)
        (now : Z) (s : Products.State)
        (env : RemoteCall Products.ProductDoc -> Response Products.ProductDoc) :
  Products.editing s = None ->
  Products.noErrors (Products.formErrors trim Number (Products.form s)) = true ->
  let r := run (Products.handleSave trim Number now s) env s in
  let pd := Products.productData trim Number now (Products.form s) in
  (forall newId,
      env (addDoc "products" (Products.writePayload pd)) = DocRef newId ->
      exists p,
        Products.products (final r) = p :: Products.products s
        /\ Products.id p = newId
        /\ Products.name p = trim (Products.f_name (Products.form s))
        /\ Products.category p = trim (Products.f_category (Products.form s))
        /\ Products.createdAt p = now
        /\ Products.featured p = Some false
        /\ Products.showModal (final r) = false)
  /\ (env (addDoc "products" (Products.writePayload pd)) = Rejected ->
      (forall docs, env (getDocs Products.firstPageQuery) <> Snapshot docs) ->
      Products.products (final r) = Products.products s
      /\ Products.showModal (final r) = Products.showModal s
      /\ map fst (calls (events r))
         = [addDoc "products" (Products.writePayload pd);
            getDocs Products.firstPageQuery]).
Proof.
  intros E V r pd. split.
  - intros newId R.
    destruct (handleSave_create_issue trim Number now s env E V) as (rest & _ & F).
    destruct (F newId R) as [_ Fin]. subst r. rewrite Fin.
    eexists. split; [reflexivity |]. repeat split.
  - intros R N. subst r pd.
    unfold Products.handleSave. rewrite run_bind, run_validate, V. simpl.
    rewrite E. simpl. rewrite R. simpl.
    destruct (env (getDocs Products.firstPageQuery)) as [| docs | i |] eqn:G; simpl;
      try (repeat split; fail).
    exfalso. apply (N docs). reflexivity.
Qed.

Lemma handleSave_create_outcome_witness :
  exists p,
    Products.products
      (final (run (Products.handleSave Js.trim Js.Number 200 Scenario.addingLatte)
                  (fun _ => DocRef "p9") Scenario.addingLatte))
    = p :: Products.products Scenario.addingLatte
    /\ Products.id p = "p9"
    /\ Products.name p = "Latte"
    /\ Products.createdAt p = 200%Z.
Proof.
  destruct (handleSave_create_outcome
              Js.trim Js.Number 200 Scenario.addingLatte (fun _ => DocRef "p9"))
    as (H & _).
  - reflexivity.
  - vm_compute. reflexivity.
  - destruct (H "p9" eq_refl) as (p & P & I & N & _ & T & _).
    exists p. split; [exact P |]. split; [exact I |]. split; [exact N | exact T].
Defined.

(** ** The featured set stays within the limit *)

(** X9.  On the products screen, if the products have distinct ids and
    at most [MAX_FEATURED] of them are featured, then after
    [toggleFeatured], for any product passed to it and whatever the store
    answers, at most [MAX_FEATURED] are featured. *)
Theorem products_featured_cap_kept
        (s : Products.State) (product : Products.Product)
        (env : RemoteCall Products.ProductDoc -> Response Products.ProductDoc) :
  NoDup (map Products.id (Products.products s)) ->
  Products.featuredCount (Products.products s) <= Products.MAX_FEATURED ->
  Products.featuredCount
    (Products.products (final (run (Products.toggleFeatured s product) env s)))
  <= Products.MAX_FEATURED.
Proof.
  intros ND Cap.
  destruct (negb (Products.truthy (Products.featured product))
            && (Products.MAX_FEATURED <=? Products.featuredCount (Products.products s))%nat)
    eqn:G.
  - rewrite (products_gate_shut s product env G). exact Cap.
  - destruct (products_gate_open s product env G) as (_ & _ & F).
    rewrite F. simpl.
    destruct (Products.truthy (Products.featured product)) eqn:T.
    + pose proof (replace_unflagged Products.Product Products.id
                    (fun p => Products.truthy (Products.featured p))
                    (Products.id product) (fun _ => Products.toggled product)
                    (Products.products s)) as L.
      unfold flagged in L. unfold Products.featuredCount.
      etransitivity; [apply L | exact Cap].
      intros _. simpl. rewrite T. reflexivity.
    + apply andb_false_iff in G. destruct G as [G | G]; [discriminate |].
      apply Nat.leb_gt in G.
      pose proof (replace_one Products.Product Products.id
                    (fun p => Products.truthy (Products.featured p))
                    (Products.id product) (fun _ => Products.toggled product)
                    (Products.products s) ND) as L.
      unfold flagged in L. unfold Products.featuredCount in *. lia.
Qed.

Lemma products_featured_cap_kept_witness :
  Products.featuredCount
    (Products.products
       (final (run (Products.toggleFeatured Scenario.fullShelf
                                            (Sample.product "p7" 7 false))
                   (Store.serve []) Scenario.fullShelf)))
  <= Products.MAX_FEATURED.
Proof.
  apply (products_featured_cap_kept Scenario.fullShelf (Sample.product "p7" 7 false)
                                    (Store.serve [])).
  - vm_compute. repeat constructor; simpl; intuition discriminate.
  - vm_compute. repeat constructor.
Defined.



(** ** Paging: what [loadMore] leaves loaded *)

(** X11.  [loadMore] never drops or reorders what is already loaded:
    whatever the store answers, the products it leaves are the ones it
    found followed by zero or more new ones.  It always clears the
    loading flag it set.  When the query fails, the list and the cursor
    are exactly as before, so the same page can be asked for again, and
    the failure is reported. *)
Theorem loadMore_only_appends
        (now : Z) (s : Products.State)
        (env : RemoteCall Products.ProductDoc -> Response Products.ProductDoc) :
  (exists more,
      Products.products (final (run (Products.loadMore now s) env s))
      = Products.products s ++ more)
  /\ (Products.lastDoc s <> None ->
      Products.loadingMore (final (run (Products.loadMore now s) env s)) = false)
  /\ (forall cursor,
         Products.lastDoc s = Some cursor ->
         (forall docs, env (getDocs (Products.nextPageQuery cursor)) <> Snapshot docs) ->
         Products.products (final (run (Products.loadMore now s) env s))
         = Products.products s
         /\ Products.lastDoc (final (run (Products.loadMore now s) env s)) = Some cursor
         /\ notices (events (run (Products.loadMore now s) env s))
            = [console_error "loadMore error:"; toast error]).
Proof.
  unfold Products.loadMore.
  destruct (Products.lastDoc s) as [cursor |] eqn:L; simpl.
  - destruct (env (getDocs (Products.nextPageQuery cursor))) as [| docs | i |] eqn:E;
      simpl.
    + split; [exists []; now rewrite app_nil_r |]. split; [reflexivity |].
      intros c C _. inversion C; subst. simpl. rewrite ?L. repeat split.
    + split.
      * destruct docs; simpl; eexists; [symmetry; apply app_nil_r | reflexivity].
      * split; [destruct docs; reflexivity |].
        intros c C N. inversion C; subst. exfalso. apply (N docs), E.
    + split; [exists []; now rewrite app_nil_r |]. split; [reflexivity |].
      intros c C _. inversion C; subst. simpl. rewrite ?L. repeat split.
    + split; [exists []; now rewrite app_nil_r |]. split; [reflexivity |].
      intros c C _. inversion C; subst. simpl. rewrite ?L. repeat split.
  - split; [exists []; now rewrite app_nil_r |]. split; [congruence |].
    intros c C. discriminate.
Qed.

(** ** Products screen: categories *)

(** X13.  The category handlers change the local list only after the
    store has accepted the write: when the [addDoc], [deleteDoc] or
    [updateDoc] is rejected, the categories and the text typed for a new
    category are exactly as before, and the user is told. *)
Theorem category_write_rejected_keeps_state (trim : string -> string) :
  (forall (s : Categories.State) env,
      env (addDoc "categories" (Categories.mkDoc (Some (trim (Categories.newCategory s)))))
      = Rejected ->
      final (run (Categories.handleAddCategory trim s) env s) = s)
  /\ (forall (s : Categories.State) catId env,
         env (deleteDoc "categories" catId) = Rejected ->
         final (run (Categories.handleDeleteCategory catId) env s) = s
         /\ In (toast error)
               (notices (events (run (Categories.handleDeleteCategory catId) env s))))
  /\ (forall (s : Categories.State) catId newName env,
         env (updateDoc "categories" catId (Categories.mkDoc (Some newName))) = Rejected ->
         final (run (Categories.handleEditCategory trim catId newName) env s) = s).
Proof.
  split; [| split].
  - intros s env R. unfold Categories.handleAddCategory.
    destruct (negb (Products.nonEmpty (trim (Categories.newCategory s))));
      [reflexivity |].
    simpl. rewrite R. reflexivity.
  - intros s catId env R. unfold Categories.handleDeleteCategory. simpl.
    rewrite R. simpl. split; [reflexivity | right; now left].
  - intros s catId newName env R. unfold Categories.handleEditCategory.
    destruct (negb (Products.nonEmpty (trim newName))); [reflexivity |].
    simpl. rewrite R. reflexivity.
Qed.

Lemma category_write_rejected_keeps_state_witness :
  final (run (Categories.handleAddCategory Js.trim Scenario.menu)
             Store.offline Scenario.menu)
  = Scenario.menu
  /\ final (run (Categories.handleEditCategory Js.trim "c1" "warm")
                Store.offline Scenario.menu)
     = Scenario.menu.
Proof.
  destruct (category_write_rejected_keeps_state Js.trim) as (Hadd & _ & Hedit).
  split.
  - apply (Hadd Scenario.menu Store.offline). reflexivity.
  - apply (Hedit Scenario.menu "c1" "warm" Store.offline). reflexivity.
Defined.

(** X14.  [handleAddCategory] touches the store exactly when the typed
    name is not blank once trimmed.  The name it sends is the trimmed
    one; when the store answers with a new id, the category is appended
    at the end of the list under that id, with the trimmed name, and the
    input is cleared. *)
Theorem handleAddCategory_outcome
        (trim : string -> string) (s : Categories.State)
        (env : RemoteCall Categories.CategoryDoc -> Response Categories.CategoryDoc) :
  (calls (events (run (Categories.handleAddCategory trim s) env s)) = []
   <-> trim (Categories.newCategory s) = "")
  /\ (trim (Categories.newCategory s) = "" ->
      run (Categories.handleAddCategory trim s) env s = (tt, s, []))
  /\ (forall newId,
         trim (Categories.newCategory s) <> "" ->
         env (addDoc "categories"
                     (Categories.mkDoc (Some (trim (Categories.newCategory s)))))
         = DocRef newId ->
         map fst (calls (events (run (Categories.handleAddCategory trim s) env s)))
         = [addDoc "categories"
                   (Categories.mkDoc (Some (trim (Categories.newCategory s))))]
         /\ Categories.categories
              (final (run (Categories.handleAddCategory trim s) env s))
            = Categories.categories s
              ++ [Categories.mkCategory newId (trim (Categories.newCategory s))]
         /\ Categories.newCategory
              (final (run (Categories.handleAddCategory trim s) env s))
            = "").
Proof.
  unfold Categories.handleAddCategory.
  destruct (trim (Categories.newCategory s)) as [| a t] eqn:T; simpl.
  - split; [split; reflexivity |]. split; [reflexivity |].
    intros newId N. congruence.
  - split; [split; [| discriminate] |].
    + destruct (env _); discriminate.
    + split; [discriminate |].
      intros newId _ R. rewrite R. simpl. repeat split.
Qed.

Lemma handleAddCategory_outcome_witness :
  Categories.categories
    (final (run (Categories.handleAddCategory Js.trim Scenario.menu)
                (fun _ => DocRef "c3") Scenario.menu))
  = [Categories.mkCategory "c1" "hot"; Categories.mkCategory "c2" "cold";
     Categories.mkCategory "c3" "iced"].
Proof.
  destruct (handleAddCategory_outcome Js.trim Scenario.menu (fun _ => DocRef "c3"))
    as (_ & _ & H).
  destruct (H "c3") as (_ & C & _).
  - vm_compute. discriminate.
  - reflexivity.
  - rewrite C. reflexivity.
Defined.

(** X15.  Renaming and deleting a category, once the store has accepted
    the write.  A delete removes exactly the categories with the given id.
    A rename keeps every id in place, gives the categories with the given
    id the new name as it was passed (it is checked trimmed but stored
    and sent untrimmed) and leaves the others as they were; a new name
    that is blank once trimmed issues no call at all. *)
Theorem category_rename_and_delete
        (trim : string -> string) (s : Categories.State) (catId : string)
        (env : RemoteCall Categories.CategoryDoc -> Response Categories.CategoryDoc) :
  (env (deleteDoc "categories" catId) <> Rejected ->
   forall c,
     In c (Categories.categories
             (final (run (Categories.handleDeleteCategory catId) env s)))
     <-> In c (Categories.categories s) /\ Categories.id c <> catId)
  /\ (forall newName,
         trim newName = "" ->
         run (Categories.handleEditCategory trim catId newName) env s = (tt, s, []))
  /\ (forall newName,
         trim newName <> "" ->
         env (updateDoc "categories" catId (Categories.mkDoc (Some newName)))
         <> Rejected ->
         let s' := final (run (Categories.handleEditCategory trim catId newName) env s) in
         map fst (calls (events (run (Categories.handleEditCategory trim catId newName)
                                     env s)))
         = [updateDoc "categories" catId (Categories.mkDoc (Some newName))]
         /\ map Categories.id (Categories.categories s')
            = map Categories.id (Categories.categories s)
         /\ (forall c, In c (Categories.categories s') ->
                       (Categories.id c = catId /\ Categories.name c = newName)
                       \/ (Categories.id c <> catId /\ In c (Categories.categories s)))).
Proof.
  split; [| split].
  - intros R c. unfold Categories.handleDeleteCategory. simpl.
    destruct (env (deleteDoc "categories" catId)); try congruence; simpl;
      rewrite filter_In, negb_true_iff, String.eqb_neq; reflexivity.
  - intros newName B. unfold Categories.handleEditCategory. rewrite B. reflexivity.
  - intros newName B R s'. subst s'. unfold Categories.handleEditCategory.
    apply nonEmpty_spec in B. rewrite B. simpl.
    assert (forall l : list Categories.Category,
               map Categories.id
                   (map (fun c => if (Categories.id c =? catId)%string
                                  then Categories.mkCategory (Categories.id c) newName
                                  else c) l)
               = map Categories.id l) as Ids.
    { intro l. apply (map_replace_ids Categories.id catId
                        (fun c => Categories.mkCategory (Categories.id c) newName)).
      reflexivity. }
    destruct (env (updateDoc "categories" catId (Categories.mkDoc (Some newName))));
      try congruence; simpl;
      (split; [reflexivity |]); (split; [apply Ids |]);
      intros c I; apply in_map_iff in I; destruct I as (q & Hq & Iq);
      (destruct (Categories.id q =? catId)%string eqn:Q;
       [ apply String.eqb_eq in Q; subst c; left; split; [exact Q | reflexivity]
       | apply String.eqb_neq in Q; subst c; right; split; assumption ]).
Qed.

Lemma category_rename_and_delete_witness :
  map Categories.name
      (Categories.categories
         (final (run (Categories.handleEditCategory Js.trim "c1" " warm")
                     (Store.serve []) Scenario.menu)))
  = [" warm"; "cold"]
  /\ forall c,
       In c (Categories.categories
               (final (run (Categories.handleDeleteCategory "c1")
                           (Store.serve []) Scenario.menu)))
       <-> In c (Categories.categories Scenario.menu) /\ Categories.id c <> "c1".
Proof.
  destruct (category_rename_and_delete Js.trim Scenario.menu "c1" (Store.serve []))
    as (Hdel & _ & _).
  split; [reflexivity |].
  apply Hdel. simpl. discriminate.
Defined.

(** ** Reservation page: the outcomes of a submission *)

Section BookingFacts.
Import Reservation.

Lemma slot_matches (f : ReservationData) (d : ReservationDoc) :
  Bookings.matches (q_where (slotQuery f)) d = true
  <-> date (d_form d) = date f /\ time (d_form d) = time f.
Proof.
  unfold Bookings.matches, slotQuery. simpl.
  rewrite !andb_true_iff, !String.eqb_eq. tauto.
Qed.

Lemma slot_answer_taken (f : ReservationData) (coll : list Bookings.Snap) d :
  In d coll ->
  date (d_form (data d)) = date f ->
  time (d_form (data d)) = time f ->
  exists x rest,
    filter (fun d => Bookings.matches (q_where (slotQuery f)) (data d)) coll
    = x :: rest.
Proof.
  intros I Hd Ht.
  destruct (filter (fun d => Bookings.matches (q_where (slotQuery f)) (data d)) coll)
    as [| x rest] eqn:F; [| eauto].
  exfalso.
  assert (In d (filter (fun d => Bookings.matches (q_where (slotQuery f)) (data d))
                       coll)) as I'.
  { apply filter_In. split; [exact I |]. apply slot_matches. split; assumption. }
  rewrite F in I'. exact I'.
Qed.

Lemma slot_answer_free (f : ReservationData) (coll : list Bookings.Snap) :
  (forall d, In d coll ->
             ~ (date (d_form (data d)) = date f /\ time (d_form (data d)) = time f)) ->
  filter (fun d => Bookings.matches (q_where (slotQuery f)) (data d)) coll = [].
Proof.
  intro Free. induction coll as [| d coll IH]; [reflexivity |]. cbn [filter].
  destruct (Bookings.matches (q_where (slotQuery f)) (data d)) eqn:M.
  - apply slot_matches in M. exfalso. apply (Free d); [now left | exact M].
  - apply IH. intros x I. apply Free. now right.
Qed.
End BookingFacts.

(** X16.  Whatever the store answers, [handleSubmit] ends with the
    loading flag cleared and has issued at most one write.  It shows the
    success message only if it issued the create of the form's data and
    that create was not rejected, and then the form is back to its empty
    state with no error shown. *)
Theorem handleSubmit_always_settles
        (now : Z) (s : Reservation.State)
        (env : RemoteCall Reservation.ReservationDoc -> Response Reservation.ReservationDoc) :
  let r := run (Reservation.handleSubmit now s) env s in
  Reservation.loading (final r) = false
  /\ List.length (filter (@isWrite _) (map fst (calls (events r)))) <= 1
  /\ (Reservation.submitted (final r) = true ->
      In (addDoc "reservations" (Reservation.mkDoc (Reservation.formData s) now))
         (map fst (calls (events r)))
      /\ env (addDoc "reservations" (Reservation.mkDoc (Reservation.formData s) now))
         <> Rejected
      /\ Reservation.formData (final r) = Reservation.emptyForm
      /\ Reservation.errorMsg (final r) = Reservation.no_error).
Proof.
  intro r. subst r.
  unfold Reservation.handleSubmit, Reservation.checkAvailability.
  destruct (Reservation.isEmpty (Reservation.date (Reservation.formData s))
            || Reservation.isEmpty (Reservation.time (Reservation.formData s))); simpl.
  - destruct (env (addDoc "reservations" _)) eqn:A; simpl;
      (split; [reflexivity |]); (split; [lia |]); intro S; try discriminate;
      (split; [now left |]); (split; [rewrite ?A; discriminate |]); split; reflexivity.
  - destruct (env (getDocs _)) as [| [| d ds] | i |]; simpl;
      try (split; [reflexivity |]; split; [lia |]; intro S; discriminate).
    destruct (env (addDoc "reservations" _)) eqn:A; simpl;
      (split; [reflexivity |]); (split; [lia |]); intro S; try discriminate;
      (split; [right; now left |]); (split; [rewrite ?A; discriminate |]);
      split; reflexivity.
Qed.

(** X17.  A slot that some reservation in the store already holds is
    refused: when date and time are filled in and the store holds a
    reservation with the same date and the same time, [checkAvailability]
    answers [false], [handleSubmit] shows the "slot already booked"
    message, issues no write, and keeps what the user typed. *)
Theorem taken_slot_is_refused
        (now : Z) (s : Reservation.State) (coll : list Bookings.Snap) (d : Bookings.Snap) :
  Reservation.date (Reservation.formData s) <> "" ->
  Reservation.time (Reservation.formData s) <> "" ->
  In d coll ->
  Reservation.date (Reservation.d_form (data d))
  = Reservation.date (Reservation.formData s) ->
  Reservation.time (Reservation.d_form (data d))
  = Reservation.time (Reservation.formData s) ->
  let r := run (Reservation.handleSubmit now s) (Bookings.serve coll) s in
  result (run (Reservation.checkAvailability s) (Bookings.serve coll) s) = false
  /\ Reservation.errorMsg (final r) = Reservation.slot_taken
  /\ map fst (calls (events r))
     = [getDocs (Reservation.slotQuery (Reservation.formData s))]
  /\ Reservation.formData (final r) = Reservation.formData s
  /\ Reservation.submitted (final r) = false.
Proof.
  intros Hd Ht I Ed Et r. subst r.
  pose proof (guard_filled s Hd Ht) as G.
  destruct (slot_answer_taken (Reservation.formData s) coll d I Ed Et)
    as (x & rest & F).
  assert (Bookings.serve coll (getDocs (Reservation.slotQuery (Reservation.formData s)))
          = Snapshot (x :: rest)) as Q
      by (unfold Bookings.serve; f_equal; exact F).
  revert Q. generalize (Bookings.serve coll). intros env Q.
  unfold Reservation.handleSubmit, Reservation.checkAvailability.
  rewrite G. simpl. rewrite Q. simpl. repeat split.
Qed.

Lemma taken_slot_is_refused_witness :
  Reservation.errorMsg
    (final (run (Reservation.handleSubmit 7 (Sample.booking Sample.dinner))
                (Bookings.serve [Sample.earlier]) (Sample.booking Sample.dinner)))
  = Reservation.slot_taken
  /\ map fst (calls (events (run (Reservation.handleSubmit 7 (Sample.booking Sample.dinner))
                                 (Bookings.serve [Sample.earlier])
                                 (Sample.booking Sample.dinner))))
     = [getDocs (Reservation.slotQuery Sample.dinner)].
Proof.
  destruct (taken_slot_is_refused 7 (Sample.booking Sample.dinner)
                                  [Sample.earlier] Sample.earlier)
    as (_ & E & C & _).
  - simpl. discriminate.
  - simpl. discriminate.
  - simpl. now left.
  - reflexivity.
  - reflexivity.
  - split; [exact E | exact C].
Defined.

(** X18.  A free slot is booked: when date and time are filled in and no
    reservation in the store has both the same date and the same time,
    [handleSubmit] queries the slot, then creates the reservation with
    exactly the data of the form and the current time, shows the success
    message and empties the form. *)
Theorem free_slot_is_booked
        (now : Z) (s : Reservation.State) (coll : list Bookings.Snap) :
  Reservation.date (Reservation.formData s) <> "" ->
  Reservation.time (Reservation.formData s) <> "" ->
  (forall d, In d coll ->
             ~ (Reservation.date (Reservation.d_form (data d))
                = Reservation.date (Reservation.formData s)
                /\ Reservation.time (Reservation.d_form (data d))
                   = Reservation.time (Reservation.formData s))) ->
  let r := run (Reservation.handleSubmit now s) (Bookings.serve coll) s in
  map fst (calls (events r))
  = [getDocs (Reservation.slotQuery (Reservation.formData s));
     addDoc "reservations" (Reservation.mkDoc (Reservation.formData s) now)]
  /\ final r
     = Reservation.mkState Reservation.emptyForm false true Reservation.no_error.
Proof.
  intros Hd Ht Free r. subst r.
  pose proof (guard_filled s Hd Ht) as G.
  pose proof (slot_answer_free (Reservation.formData s) coll Free) as F.
  assert (Bookings.serve coll (getDocs (Reservation.slotQuery (Reservation.formData s)))
          = Snapshot []) as Q
      by (unfold Bookings.serve; f_equal; exact F).
  assert (Bookings.serve coll
            (addDoc "reservations" (Reservation.mkDoc (Reservation.formData s) now))
          = Fulfilled) as W by reflexivity.
  revert Q W. generalize (Bookings.serve coll). intros env Q W.
  unfold Reservation.handleSubmit, Reservation.checkAvailability.
  rewrite G. simpl. rewrite Q. simpl. rewrite W. split; reflexivity.
Qed.

Lemma free_slot_is_booked_witness :
  final (run (Reservation.handleSubmit 7 (Sample.booking Sample.dinner))
             (Bookings.serve []) (Sample.booking Sample.dinner))
  = Reservation.mkState Reservation.emptyForm false true Reservation.no_error.
Proof.
  destruct (free_slot_is_booked 7 (Sample.booking Sample.dinner) []) as (_ & H).
  - simpl. discriminate.
  - simpl. discriminate.
  - intros d [].
  - exact H.
Defined.

(** X19.  When the slot is found free (or the check is skipped) and the
    create is then rejected, [handleSubmit] keeps everything the user
    typed, shows the "error while booking" message and no success
    message, and stops loading, so the same form can be submitted
    again. *)
Theorem rejected_booking_keeps_form
        (now : Z) (s : Reservation.State)
        (env : RemoteCall Reservation.ReservationDoc -> Response Reservation.ReservationDoc) :
  result (run (Reservation.checkAvailability s) env s) = true ->
  env (addDoc "reservations" (Reservation.mkDoc (Reservation.formData s) now))
  = Rejected ->
  final (run (Reservation.handleSubmit now s) env s)
  = Reservation.mkState (Reservation.formData s) false false Reservation.booking_failed.
Proof.
  intros A R.
  unfold Reservation.handleSubmit, Reservation.checkAvailability in *.
  destruct (Reservation.isEmpty (Reservation.date (Reservation.formData s))
            || Reservation.isEmpty (Reservation.time (Reservation.formData s))); simpl in *.
  - rewrite R. reflexivity.
  - destruct (env (getDocs _)) as [| [| d ds] | i |]; simpl in *; try discriminate.
    rewrite R. reflexivity.
Qed.

Lemma rejected_booking_keeps_form_witness :
  final (run (Reservation.handleSubmit 7 (Sample.booking Sample.dinner))
             (fun c => match c with
                       | getDocs _ => Snapshot []
                       | _ => Rejected
                       end)
             (Sample.booking Sample.dinner))
  = Reservation.mkState Sample.dinner false false Reservation.booking_failed.
Proof.
  apply (rejected_booking_keeps_form 7 (Sample.booking Sample.dinner)
           (fun c => match c with
                     | getDocs _ => Snapshot []
                     | _ => Rejected
                     end)); reflexivity.
Defined.

(** ** Reviews screen: what the cards show *)

(** X20.  [truncate] never returns more than [length] units of text
    plus the three dots, keeps the first [length] units of the text as
    they are, returns a text that fits unchanged, and truncating its
    result again changes nothing. *)
Theorem truncate_bounded_and_stable
        (unit16 : Type) (dot : unit16) (text : list unit16) (n : nat) :
  List.length (ReviewCards.truncate dot text n) <= n + 3
  /\ firstn n (ReviewCards.truncate dot text n) = firstn n text
  /\ (List.length text <= n -> ReviewCards.truncate dot text n = text)
  /\ ReviewCards.truncate dot (ReviewCards.truncate dot text n) n
     = ReviewCards.truncate dot text n.
Proof.
  unfold ReviewCards.truncate.
  destruct (n <? List.length text)%nat eqn:L.
  - apply Nat.ltb_lt in L.
    assert (List.length (firstn n text) = n) as Hn
        by (apply firstn_length_le; lia).
    assert (firstn n (firstn n text ++ [dot; dot; dot]) = firstn n text) as Fn.
    { rewrite firstn_app, Hn, Nat.sub_diag. simpl firstn at 2.
      rewrite app_nil_r, firstn_firstn, Nat.min_id. reflexivity. }
    repeat split.
    + rewrite length_app, Hn. simpl. lia.
    + exact Fn.
    + intro H. lia.
    + assert ((n <? List.length (firstn n text ++ [dot; dot; dot]))%nat = true) as L'.
      { apply Nat.ltb_lt. rewrite length_app, Hn. simpl. lia. }
      rewrite L', Fn. reflexivity.
  - rewrite L. apply Nat.ltb_ge in L.
    repeat split; try reflexivity. lia.
Qed.

Section ViewFacts.
Variable A : Type.

Lemma filter_split_perm (p q : A -> bool) (l : list A) :
  Permutation (filter q (filter p l) ++ filter q (filter (fun a => negb (p a)) l))
              (filter q l).
Proof.
  induction l as [| a l IH]; [constructor |]. simpl.
  destruct (p a); simpl; destruct (q a); simpl; try exact IH.
  - now apply perm_skip.
  - eapply Permutation_trans; [apply Permutation_sym, Permutation_middle |].
    now apply perm_skip.
Qed.
End ViewFacts.

(** X21.  The "featured" and "not featured" views of the reviews split
    the "all" view: for any search text, every review shown under "all"
    is shown under exactly one of the two, the first holding only
    featured reviews and the second only reviews that are not; any other
    value of the filter shows what "all" shows. *)
Theorem featured_views_split_all
        (toLowerCase : string -> string) (includes : string -> string -> bool)
        (reviews : list Reviews.Review) (search : string) :
  Permutation
    (ReviewCards.filteredReviews toLowerCase includes reviews search "featured"
     ++ ReviewCards.filteredReviews toLowerCase includes reviews search "none")
    (ReviewCards.filteredReviews toLowerCase includes reviews search "all")
  /\ (forall r,
         In r (ReviewCards.filteredReviews toLowerCase includes reviews search "featured") ->
         Reviews.featured r = true)
  /\ (forall r,
         In r (ReviewCards.filteredReviews toLowerCase includes reviews search "none") ->
         Reviews.featured r = false)
  /\ (forall other,
         other <> "featured" -> other <> "none" ->
         ReviewCards.filteredReviews toLowerCase includes reviews search other
         = ReviewCards.filteredReviews toLowerCase includes reviews search "all").
Proof.
  unfold ReviewCards.filteredReviews. simpl.
  split; [apply filter_split_perm |]. split; [| split].
  - intros r I. apply filter_In in I. destruct I as [I _].
    apply filter_In in I. apply I.
  - intros r I. apply filter_In in I. destruct I as [I _].
    apply filter_In in I. destruct I as [_ I]. now apply negb_true_iff in I.
  - intros other N1 N2.
    apply String.eqb_neq in N1. apply String.eqb_neq in N2.
    rewrite N1, N2. reflexivity.
Qed.

(** ** Orders: editing the items of an order *)

Section ItemFacts.
Variable number : Type.
Variables zero one : number.
Variables add mul : number -> number -> number.

Lemma filter_fresh (stamp : string) (l : list (Orders.OrderItem number)) :
  (forall i, In i l -> Orders.i_id i <> stamp) ->
  filter (fun i => negb (Orders.i_id i =? stamp)%string) l = l.
Proof.
  induction l as [| a l IH]; intro F; [reflexivity |]. simpl.
  assert (Orders.i_id a <> stamp) as N by (apply F; now left).
  apply String.eqb_neq in N. rewrite N. simpl. f_equal.
  apply IH. intros i I. apply F. now right.
Qed.

Lemma total_ignores_labels (g : Orders.OrderItem number -> Orders.OrderItem number)
      (l : list (Orders.OrderItem number)) (acc : number) :
  (forall i, Orders.i_price (g i) = Orders.i_price i
             /\ Orders.i_quantity (g i) = Orders.i_quantity i) ->
  fold_left (fun a i => add a (mul (Orders.i_price i) (Orders.i_quantity i)))
            (map g l) acc
  = fold_left (fun a i => add a (mul (Orders.i_price i) (Orders.i_quantity i)))
              l acc.
Proof.
  intro G. revert acc. induction l as [| a l IH]; intro acc; [reflexivity |].
  simpl. destruct (G a) as [-> ->]. apply IH.
Qed.
End ItemFacts.

(** X22.  Removing the item just added gives the order back: when no
    item of the order being edited carries the new item's id,
    [addItem] followed by [removeItem] of that id leaves the order
    exactly as it was. *)
Theorem removeItem_undoes_addItem
        (number : Type) (zero one : number) (stamp : string)
        (o : Orders.Order number) :
  (forall i, In i (Orders.items o) -> Orders.i_id i <> stamp) ->
  Orders.after (Orders.removeItem stamp)
               (Orders.after (Orders.addItem zero one stamp) (Some o))
  = Some o.
Proof.
  intro Fresh. unfold Orders.after. simpl.
  rewrite filter_app, filter_fresh by exact Fresh. simpl.
  rewrite String.eqb_refl. simpl. rewrite app_nil_r.
  destruct o; reflexivity.
Qed.

Lemma removeItem_undoes_addItem_witness :
  Orders.after (Orders.removeItem "i2")
               (Orders.after (Orders.addItem 0%Z 1%Z "i2") (Some Scenario.lunch))
  = Some Scenario.lunch.
Proof.
  apply (removeItem_undoes_addItem Z 0%Z 1%Z "i2" Scenario.lunch).
  intros i [<- | []]. simpl. discriminate.
Defined.

(** X23.  Choosing a product for an item sets only the item's price.
    The selector's handler calls [updateItem] three times in one event
    (for [productId], [name] and [price]), each time building the new
    order from the order of the render it was created in, so the last
    call overwrites the first two: afterwards the items with that id
    carry the chosen product's price, while the [productId] and the
    [name] of every item are what they were. *)
Theorem selectProduct_sets_price_only
        (number : Type) (products : list (Orders.Product number))
        (itemId value : string) (selected : Orders.Product number)
        (o : Orders.Order number) :
  find (fun p => (Orders.p_id p =? value)%string) products = Some selected ->
  exists o',
    Orders.after (Orders.selectProduct products itemId value) (Some o) = Some o'
    /\ Orders.after (Orders.selectProduct products itemId value) (Some o)
       = Orders.after (Orders.updateItem itemId (Orders.at_price (Orders.p_price selected)))
                      (Some o)
    /\ map (@Orders.i_productId number) (Orders.items o')
       = map (@Orders.i_productId number) (Orders.items o)
    /\ map (@Orders.i_name number) (Orders.items o')
       = map (@Orders.i_name number) (Orders.items o)
    /\ forall i, In i (Orders.items o') ->
                 Orders.i_id i = itemId ->
                 Orders.i_price i = Orders.p_price selected.
Proof.
  intro F. unfold Orders.after, Orders.selectProduct. rewrite F. simpl.
  eexists. split; [reflexivity |]. split; [reflexivity |]. simpl.
  split; [| split].
  - rewrite map_map. apply map_ext. intro i.
    destruct (Orders.i_id i =? itemId)%string; reflexivity.
  - rewrite map_map. apply map_ext. intro i.
    destruct (Orders.i_id i =? itemId)%string; reflexivity.
  - intros i I Hid. apply in_map_iff in I. destruct I as (q & Hq & _).
    destruct (Orders.i_id q =? itemId)%string eqn:Q; subst i.
    + reflexivity.
    + apply String.eqb_neq in Q. contradiction.
Qed.

Lemma selectProduct_sets_price_only_witness :
  Orders.after (Orders.selectProduct Scenario.catalogue "i1" "p2")
               (Some Scenario.lunch)
  = Some (Orders.mkOrder "o1" "Mona" [Orders.mkItem "i1" "" "" 55%Z 1%Z]
                         0%Z 0 Orders.pending).
Proof.
  destruct (selectProduct_sets_price_only
              Z Scenario.catalogue "i1" "p2" (Orders.mkProduct "p2" "mocha" 55%Z)
              Scenario.lunch eq_refl)
    as (o' & _ & E & _).
  rewrite E. reflexivity.
Defined.

(** X24.  Relabelling an item never changes the order's total nor the
    items' ids: after [updateItem] on the [name] or the [productId] of an
    item, [calculateTotal] of the items is what it was, whatever the
    arithmetic of the numbers, and the ids are the same in the same
    order. *)
Theorem updateItem_label_keeps_total
        (number : Type) (zero : number) (add mul : number -> number -> number)
        (itemId v : string) (o : Orders.Order number) :
  forall fv,
    fv = Orders.at_name number v \/ fv = Orders.at_productId number v ->
    exists o',
      Orders.after (Orders.updateItem itemId fv) (Some o) = Some o'
      /\ Orders.calculateTotal zero add mul (Orders.items o')
         = Orders.calculateTotal zero add mul (Orders.items o)
      /\ map (@Orders.i_id number) (Orders.items o')
         = map (@Orders.i_id number) (Orders.items o).
Proof.
  intros fv Hfv. unfold Orders.after. simpl.
  eexists. split; [reflexivity |]. simpl. split.
  - unfold Orders.calculateTotal.
    apply total_ignores_labels. intro i.
    destruct (Orders.i_id i =? itemId)%string; [| split; reflexivity].
    destruct Hfv as [-> | ->]; split; reflexivity.
  - rewrite map_map. apply map_ext. intro i.
    destruct (Orders.i_id i =? itemId)%string; [| reflexivity].
    destruct Hfv as [-> | ->]; reflexivity.
Qed.

Lemma updateItem_label_keeps_total_witness :
  exists o',
    Orders.after (Orders.updateItem "i1" (Orders.at_name Z "mocha")) (Some Scenario.lunch)
    = Some o'
    /\ Orders.calculateTotal 0%Z Z.add Z.mul (Orders.items o')
       = Orders.calculateTotal 0%Z Z.add Z.mul (Orders.items Scenario.lunch)
    /\ map (@Orders.i_id Z) (Orders.items o')
       = map (@Orders.i_id Z) (Orders.items Scenario.lunch).
Proof.
  apply (updateItem_label_keeps_total Z 0%Z Z.add Z.mul "i1" "mocha" Scenario.lunch).
  left. reflexivity.
Defined.

(** ** Toggling twice *)

Section ToggleFacts.
Import Products.

Lemma replace_self (p : Product) (l : list Product) :
  NoDup (map id l) -> In p l ->
  map (fun q => if (id q =? id p)%string then p else q) l = l.
Proof.
  induction l as [| a l IH]; intros ND I; [reflexivity |]. simpl.
  inversion ND as [| ? ? Hn ND']; subst.
  destruct (id a =? id p)%string eqn:E.
  - apply String.eqb_eq in E.
    assert (p = a) as ->.
    { destruct I as [I | I]; [now symmetry |].
      exfalso. apply Hn. rewrite E. apply in_map, I. }
    f_equal.
    apply (replace_absent Product id (id a) (fun _ => a)). exact Hn.
  - destruct I as [I | I].
    + subst a. rewrite String.eqb_refl in E. discriminate.
    + f_equal. apply IH; assumption.
Qed.

Lemma toggled_twice (p : Product) (b : bool) :
  featured p = Some b -> toggled (toggled p) = p.
Proof.
  intro F. destruct p as [i n c pr d im t f]. simpl in F. subst f.
  unfold toggled. simpl. destruct b; reflexivity.
Qed.
End ToggleFacts.

(** X25.  Toggling a product's featured flag twice gives the list back.
    With distinct ids and fewer than [MAX_FEATURED] products featured,
    toggling a product of the list whose flag is set to a boolean, and
    then toggling it again from the list as it is then shown, leaves the
    list of products exactly as it was at the start, whatever the store
    answers to the two updates. *)
Theorem toggleFeatured_twice_restores_list
        (s : Products.State) (product : Products.Product) (b : bool)
        (env1 env2 : RemoteCall Products.ProductDoc -> Response Products.ProductDoc) :
  NoDup (map Products.id (Products.products s)) ->
  In product (Products.products s) ->
  Products.featured product = Some b ->
  Products.featuredCount (Products.products s) < Products.MAX_FEATURED ->
  let s1 := final (run (Products.toggleFeatured s product) env1 s) in
  let s2 := final (run (Products.toggleFeatured s1 (Products.toggled product)) env2 s1) in
  Products.products s2 = Products.products s
  /\ map fst (calls (events (run (Products.toggleFeatured s product) env1 s)))
     = [updateDoc "products" (Products.id product)
                  (Products.featuredOnly (Some (negb b)))]
  /\ map fst (calls (events (run (Products.toggleFeatured s1 (Products.toggled product))
                                 env2 s1)))
     = [updateDoc "products" (Products.id product) (Products.featuredOnly (Some b))].
Proof.
  intros ND I F Cap s1 s2.
  assert (Products.truthy (Products.featured product) = b) as T
      by (rewrite F; destruct b; reflexivity).
  assert (negb (Products.truthy (Products.featured product))
          && (Products.MAX_FEATURED <=? Products.featuredCount (Products.products s))%nat
          = false) as G1.
  { apply andb_false_iff. right. apply Nat.leb_gt. exact Cap. }
  destruct (products_gate_open s product env1 G1) as (C1 & _ & F1).
  fold s1 in F1.
  assert (Products.products s1
          = map (fun p => if (Products.id p =? Products.id product)%string
                          then Products.toggled product else p)
                (Products.products s)) as P1 by (rewrite F1; reflexivity).
  assert (negb (Products.truthy (Products.featured (Products.toggled product)))
          && (Products.MAX_FEATURED <=? Products.featuredCount (Products.products s1))%nat
          = false) as G2.
  { apply andb_false_iff. destruct b.
    2: { left. unfold Products.toggled. cbn [Products.featured].
         rewrite F. reflexivity. }
    right. apply Nat.leb_gt. rewrite P1.
    pose proof (replace_unflagged Products.Product Products.id
                  (fun p => Products.truthy (Products.featured p))
                  (Products.id product) (fun _ => Products.toggled product)
                  (Products.products s)) as L.
    unfold flagged in L. unfold Products.featuredCount in *.
    assert (forall a : Products.Product,
               Products.truthy (Products.featured (Products.toggled product)) = false)
      as U by (intros _; simpl; rewrite T; reflexivity).
    specialize (L U). lia. }
  destruct (products_gate_open s1 (Products.toggled product) env2 G2) as (C2 & _ & F2).
  fold s2 in F2.
  split; [| split].
  - rewrite F2. simpl. rewrite P1, map_map.
    rewrite (toggled_twice product b F).
    rewrite <- (replace_self product (Products.products s) ND I) at 2.
    apply map_ext. intro q. simpl.
    destruct (Products.id q =? Products.id product)%string eqn:Q.
    + simpl. rewrite String.eqb_refl. reflexivity.
    + rewrite Q. reflexivity.
  - rewrite C1, T. reflexivity.
  - rewrite C2. unfold Products.toggled. cbn [Products.featured Products.id].
    rewrite F. destruct b; reflexivity.
Qed.

Lemma toggleFeatured_twice_restores_list_witness :
  Products.products
    (final (run (Products.toggleFeatured
                   (final (run (Products.toggleFeatured
                                  (Sample.shelf [Sample.product "p1" 100 false])
                                  (Sample.product "p1" 100 false))
                               Store.offline
                               (Sample.shelf [Sample.product "p1" 100 false])))
                   (Products.toggled (Sample.product "p1" 100 false)))
                (Store.serve [])
                (final (run (Products.toggleFeatured
                               (Sample.shelf [Sample.product "p1" 100 false])
                               (Sample.product "p1" 100 false))
                            Store.offline
                            (Sample.shelf [Sample.product "p1" 100 false])))))
  = [Sample.product "p1" 100 false].
Proof.
  destruct (toggleFeatured_twice_restores_list
              (Sample.shelf [Sample.product "p1" 100 false])
              (Sample.product "p1" 100 false) false
              Store.offline (Store.serve []))
    as (H & _).
  - vm_compute. repeat constructor. intros [].
  - simpl. now left.
  - reflexivity.
  - vm_compute. repeat constructor.
  - exact H.
Defined.
